(** * ioos_glider: glider trajectory containers and their GeoJSON projection

    A shallow embedding of [ioos_glider.py]: the NetCDF writer [writer_0_0],
    the read path [get_stride], [get_time_coverage], [geojson], and the
    conversion of simulation output, [romssim_read] and [romssim_write].

    Conventions of the embedding.
    - float64 samples are Rocq's primitive binary64 floats; Python integers
      are [Z]; lengths, indices and axis sizes are [nat].
    - A Python exception is a value of [exn]; code that may raise returns a
      [result].
    - The NetCDF library is modelled by the small store of the section
      "The container": named dimensions, ordered attributes, ordered
      variables.  Compression, element-type conversion on assignment and the
      library's own conformance checks on assignment are not part of it. *)

From Stdlib Require Import ZArith List String Ascii Floats Uint63 Lia Bool.
From stdpp Require Import gmap strings sorting.

(** ** Exceptions and results *)

Inductive exn : Type :=
  | AssertionError
  | KeyError (key : string)
  | IndexError
  | ValueError
  | AttributeError
  | IOError.

Inductive result (A : Type) : Type :=
  | Ok (a : A)
  | Raise (e : exn).
Arguments Ok {A} a.
Arguments Raise {A} e.

Global Instance result_ret : MRet result := λ A a, Ok a.
Global Instance result_bind : MBind result := λ A B f m,
  match m with Ok a => f a | Raise e => Raise e end.
Global Instance result_fmap : FMap result := λ A B f m,
  match m with Ok a => Ok (f a) | Raise e => Raise e end.

(** The computation returns a value. *)
Definition succeeds {A : Type} (r : result A) : Prop :=
  match r with Ok _ => True | Raise _ => False end.

(** ** Numbers *)

(** An array element or a Python number: numpy float64 or an integer. *)
Inductive scalar : Type :=
  | F64 (x : float)
  | I64 (z : Z).

Definition float_of_Z (z : Z) : float :=
  if (z <? 0)%Z then PrimFloat.opp (PrimFloat.of_uint63 (Uint63.of_Z (- z)))
  else PrimFloat.of_uint63 (Uint63.of_Z z).

(** [x.astype(np.float64)] on one element. *)
Definition astype_float64 (s : scalar) : float :=
  match s with F64 x => x | I64 z => float_of_Z z end.

(** [x < 1000] on float64; false on NaN, as in IEEE 754. *)
Definition lt1000 (x : float) : bool := PrimFloat.ltb x 1000%float.

(** [a == b] on array elements. *)
Definition scalar_eqb (a b : scalar) : bool :=
  match a, b with
  | I64 x, I64 y => (x =? y)%Z
  | _, _ => PrimFloat.eqb (astype_float64 a) (astype_float64 b)
  end.

(** Floor of a finite float, through its IEEE decomposition. *)
Definition float_floor (x : float) : option Z :=
  match Prim2SF x with
  | S754_zero _ => Some 0%Z
  | S754_finite s m e =>
      let den := (2 ^ (- e))%Z in
      Some (if (0 <=? e)%Z then (if s then - (Z.pos m * 2 ^ e) else Z.pos m * 2 ^ e)%Z
            else if s then (- ((Z.pos m + den - 1) / den))%Z
            else (Z.pos m / den)%Z)
  | _ => None
  end.

(** ** Python values held by attributes, feature ids and properties *)

Inductive pyval : Type :=
  | PyNone
  | PyMasked
  | PyStr (s : string)
  | PyNum (x : scalar)
  | PyArr (shape : list nat) (elems : list scalar).

(** A numpy array: its shape and its elements in row-major order. *)
Record ndarray : Type := mk_ndarray { shape : list nat; elems : list scalar }.

(** A flattened masked array, as the library hands it out on a read. *)
Record marray : Type := mk_marray { data : list scalar; mask : list bool }.

(** [a.shape[0]] *)
Definition shape0 (a : ndarray) : result nat :=
  match shape a with n :: _ => Ok n | [] => Raise IndexError end.

Definition shape_size (sh : list nat) : nat := foldr Nat.mul 1 sh.

(** ** Dates *)

Record datetime : Type := mk_datetime {
  year : Z; month : Z; day : Z; hour : Z; minute : Z; second : Z; microsecond : Z }.

Definition digit (n : Z) : ascii := ascii_of_nat (48 + Z.to_nat (n mod 10)).

Definition pad2 (n : Z) : string :=
  String (digit (n / 10)) (String (digit n) "").

Definition pad4 (n : Z) : string :=
  String (digit (n / 1000)) (String (digit (n / 100)) (pad2 n)).

(** [d.strftime('%Y-%m-%d %H:%M UTC')].  Python 2 refuses years before 1900. *)
Definition strftime (d : datetime) : result string :=
  if (year d <? 1900)%Z then Raise ValueError
  else Ok (pad4 (year d) +:+ "-" +:+ pad2 (month d) +:+ "-" +:+ pad2 (day d) +:+ " "
           +:+ pad2 (hour d) +:+ ":" +:+ pad2 (minute d) +:+ " UTC").

(** Days between 1970-01-01 and a civil date of the Gregorian calendar. *)
Definition days_from_civil (y m d : Z) : Z :=
  let y' := (if m <=? 2 then y - 1 else y)%Z in
  let era := (y' / 400)%Z in
  let yoe := (y' - era * 400)%Z in
  let mp := ((m + 9) mod 12)%Z in
  let doy := ((153 * mp + 2) / 5 + d - 1)%Z in
  let doe := (yoe * 365 + yoe / 4 - yoe / 100 + doy)%Z in
  (era * 146097 + doe - 719468)%Z.

Definition civil_from_days (z : Z) : Z * Z * Z :=
  let z' := (z + 719468)%Z in
  let era := (z' / 146097)%Z in
  let doe := (z' - era * 146097)%Z in
  let yoe := ((doe - doe / 1460 + doe / 36524 - doe / 146096) / 365)%Z in
  let doy := (doe - (365 * yoe + yoe / 4 - yoe / 100))%Z in
  let mp := ((5 * doy + 2) / 153)%Z in
  let d := (doy - (153 * mp + 2) / 5 + 1)%Z in
  let m := (if mp <? 10 then mp + 3 else mp - 9)%Z in
  ((if m <=? 2 then yoe + era * 400 + 1 else yoe + era * 400)%Z, m, d).

(** The one unit string this program writes, and the only one the model of
    the time conversions interprets. *)
Definition EPOCH_UNITS : string := "seconds since 1970-01-01 00:00:00 UTC".

Definition seconds_since_epoch (d : datetime) : Z :=
  (days_from_civil (year d) (month d) (day d) * 86400
   + hour d * 3600 + minute d * 60 + second d)%Z.

(** [date2num(dates, units=EPOCH_UNITS, calendar='gregorian')] *)
Definition date2num (dates : list datetime) : list scalar :=
  map (λ d, F64 (PrimFloat.add (float_of_Z (seconds_since_epoch d))
                   (PrimFloat.div (float_of_Z (microsecond d)) 1000000%float)))
      dates.

(** [num2date(x, units=units)]: whole seconds are kept, which is all the
    minute-resolution format above can show.  Other unit strings and
    non-finite samples are reported as [ValueError]. *)
Definition num2date (x : scalar) (units : string) : result datetime :=
  if decide (units = EPOCH_UNITS) then
    match float_floor (astype_float64 x) with
    | Some s =>
        let days := (s / 86400)%Z in
        let r := (s mod 86400)%Z in
        let '(y, m, d) := civil_from_days days in
        Ok (mk_datetime y m d (r / 3600) ((r mod 3600) / 60) (r mod 60) 0)
    | None => Raise ValueError
    end
  else Raise ValueError.

(** ** The container *)

Inductive dtype : Type := f8 | i2 | i1.

(** [netCDF4.default_fillvals], at the three element types in use; the
    float64 one is 9.969209968386869e+36. *)
Definition NC_FILL_VALUES (t : dtype) : scalar :=
  match t with
  | f8 => F64 0x1.ep+122%float
  | i2 => I64 (-32767)
  | i1 => I64 (-127)
  end.

(** NetCDF4 compression level of the writer. *)
Definition COMP_LEVEL : nat := 1.

Record variable : Type := mk_variable {
  var_dtype : dtype;
  var_dims : list string;
  var_complevel : option nat;
  var_fill : option scalar;
  var_attrs : list (string * pyval);
  var_data : option ndarray }.

Record dataset : Type := mk_dataset {
  dimensions : list (string * nat);
  ncattrs : list (string * pyval);
  variables : list (string * variable) }.

(** What [Dataset(filename, 'w')] leaves at its destination. *)
Definition empty_dataset : dataset := mk_dataset [] [] [].

(** Destinations (file names, DAP URLs) and what they hold. *)
Abbreviation filesystem := (gmap string dataset).

Section Assoc.
Context {V : Type}.

Fixpoint assoc (k : string) (l : list (string * V)) : option V :=
  match l with
  | [] => None
  | (k', v) :: l' => if String.eqb k k' then Some v else assoc k l'
  end.

(** Set a key in place when it exists, append it otherwise. *)
Fixpoint assoc_set (k : string) (v : V) (l : list (string * V)) : list (string * V) :=
  match l with
  | [] => [(k, v)]
  | (k', v') :: l' =>
      if String.eqb k k' then (k, v) :: l' else (k', v') :: assoc_set k v l'
  end.

Fixpoint assoc_alter (f : V → V) (k : string) (l : list (string * V)) : list (string * V) :=
  match l with
  | [] => []
  | (k', v') :: l' =>
      if String.eqb k k' then (k', f v') :: l' else (k', v') :: assoc_alter f k l'
  end.
End Assoc.

(** [nc.variables[name]] *)
Definition getvar (nc : dataset) (name : string) : result variable :=
match assoc name (variables nc) with
| Some v => Ok v
| None => Raise (KeyError name)
end.

(** [name in nc.variables] *)
Definition has_var (nc : dataset) (name : string) : bool :=
match assoc name (variables nc) with Some _ => true | None => false end.

(** [v.shape]: the current sizes of the variable's dimensions. *)
Definition var_shape (nc : dataset) (v : variable) : list nat :=
map (λ d, default 0 (assoc d (dimensions nc))) (var_dims v).

(** The value that marks a missing element of [v]. *)
Definition fill_of (v : variable) : scalar :=
default (NC_FILL_VALUES (var_dtype v)) (var_fill v).

(** The elements of [v] as stored: those assigned, or the fill value
  everywhere when nothing was ever assigned. *)
Definition var_elems (nc : dataset) (v : variable) : list scalar :=
match var_data v with
| Some a => elems a
| None => replicate (shape_size (var_shape nc v)) (fill_of v)
end.

(** A stored variable holds one element per index of its shape. *)
Definition var_wf (nc : dataset) (v : variable) : Prop :=
length (var_elems nc v) = shape_size (var_shape nc v).

(** ** Slicing *)

Section Slices.
Context {A : Type}.

Fixpoint every_from (skip step : nat) (l : list A) : list A :=
  match l with
  | [] => []
  | x :: l' =>
      match skip with
      | O => x :: every_from (step - 1) step l'
      | S k => every_from k step l'
      end
  end.

(** [l[::step]] for a positive step. *)
Definition strided (step : positive) (l : list A) : list A :=
  every_from 0 (Pos.to_nat step) l.

(** The [r]-th chunk of [k] consecutive elements. *)
Definition chunk (k r : nat) (l : list A) : list A := take k (drop (r * k) l).

(** A row-major buffer cut along its leading axis of length [n]. *)
Definition rows (n k : nat) (l : list A) : list (list A) :=
  map (λ r, chunk k r l) (seq 0 n).

(** [xs[m]] with a boolean mask [m]. *)
Fixpoint compress (xs : list A) (m : list bool) : list A :=
  match xs, m with
  | x :: xs', b :: m' => if b then x :: compress xs' m' else compress xs' m'
  | _, _ => []
  end.

Definition bool_index (xs : list A) (m : list bool) : result (list A) :=
  if decide (length xs = length m) then Ok (compress xs m) else Raise IndexError.

End Slices.

(** [v[::step]]: the selected entries along the leading axis. *)
Definition getitem_stride (nc : dataset) (v : variable) (step : positive)
  : result (list (list scalar)) :=
  match var_shape nc v with
  | [] => Raise IndexError
  | n :: inner => Ok (strided step (rows n (shape_size inner) (var_elems nc v)))
  end.

(** [v[::step, i]]: the same, at index [i] of the second axis. *)
Definition getitem_stride_col (nc : dataset) (v : variable) (step : positive) (i : nat)
  : result (list (list scalar)) :=
  match var_shape nc v with
  | n :: t :: inner =>
      if decide (i < t) then
        let k := shape_size inner in
        Ok (map (chunk k i) (strided step (rows n (t * k) (var_elems nc v))))
      else Raise IndexError
  | _ => Raise IndexError
  end.

(** [.flatten()] of a slice of [v]: the elements, and the mask the library
    attaches to them (an element is masked when it equals the fill value). *)
Definition flatten (v : variable) (slice : list (list scalar)) : marray :=
  let cells := concat slice in
  mk_marray cells (map (scalar_eqb (fill_of v)) cells).

(** [v[i]]: an element of a one-dimensional variable, a sub-array otherwise. *)
Definition getitem (nc : dataset) (v : variable) (i : nat) : result pyval :=
  match var_shape nc v with
  | [] => Raise IndexError
  | n :: inner =>
      if decide (i < n) then
        let cells := chunk (shape_size inner) i (var_elems nc v) in
        match inner, cells with
        | [], [x] => Ok (if scalar_eqb (fill_of v) x then PyMasked else PyNum x)
        | _, _ => Ok (PyArr inner cells)
        end
      else Raise IndexError
  end.

(** ** The read path *)

(** [get_stride(nc)] *)
Definition get_stride (nc : dataset) : result positive :=
  v ← getvar nc "lon";
  n ← match var_shape nc v with n :: _ => Ok n | [] => Raise IndexError end;
  Ok (if decide (1000 < n) then 200%positive else 1%positive).

(** [num2date(entry, units=v.units).strftime('%Y-%m-%d %H:%M UTC')] for an
    entry of [v[::stride]] picked by [[0]] or [[-1]]; [None] stands for an
    index out of range.  An entry that is itself an array has no
    [strftime].  The mask of a time sample is not consulted. *)
Definition coverage_bound (nc : dataset) (v : variable) (entry : option (list scalar))
  : result pyval :=
  row ← match entry with Some row => Ok row | None => Raise IndexError end;
  units ← match assoc "units" (var_attrs v) with
          | Some (PyStr u) => Ok u
          | _ => Raise AttributeError
          end;
  match var_shape nc v, row with
  | [_], [x] => d ← num2date x units; PyStr <$> strftime d
  | _, _ => _ ← mapM (λ x, num2date x units) row; Raise AttributeError
  end.

(** The body of [if tname != None:] in [get_time_coverage]. *)
Definition coverage_of (nc : dataset) (tname : string) (stride : positive)
  : result (pyval * pyval) :=
  v ← getvar nc tname;
  s ← getitem_stride nc v stride;
  a ← coverage_bound nc v (head s);
  b ← coverage_bound nc v (last s);
  Ok (a, b).

(** [get_time_coverage(nc, stride)] *)
Definition get_time_coverage (nc : dataset) (stride : positive) : result (pyval * pyval) :=
  let tname : option string := None in
  let tname := if has_var nc "ocean_time" then Some "ocean_time" else tname in
  let tname := if has_var nc "time" then Some "time" else tname in
  match tname with
  | Some tname => coverage_of nc tname stride
  | None => Ok (PyNone, PyNone)
  end.

(** ** GeoJSON objects *)

Record feature : Type := mk_feature {
  fid : pyval;
  geometry : list (float * float);
  properties : gmap string pyval }.

Inductive gjobject : Type :=
  | Feature (f : feature)
  | FeatureCollection (features : list feature).

(** Modelled from the spec: [getncattrs(nc)], whose module is not among the
    sources.  The spec gives the reader an accessor [attributes()] that
    returns the container's global attribute mapping and states that the
    read path works on a view of the stored attributes, never on the stored
    attributes themselves: the result is a fresh mapping from every global
    attribute name to its value. *)
Definition getncattrs (nc : dataset) : gmap string pyval :=
  list_to_map (ncattrs nc).

(** [k in s] *)
Definition has_key (s : gmap string pyval) (k : string) : bool :=
  match s !! k with Some _ => true | None => false end.

(** The statement
    [if (not "time_coverage_start" in s) or (not "time_coverage_end" in s):
       s["time_coverage_start"], s["time_coverage_end"] = get_time_coverage(nc, stride)]
    on the mapping [s]. *)
Definition coverage_properties (nc : dataset) (stride : positive) (s : gmap string pyval)
  : result (gmap string pyval) :=
  if negb (has_key s "time_coverage_start") || negb (has_key s "time_coverage_end") then
    '(a, b) ← get_time_coverage nc stride;
    Ok (<["time_coverage_end" := b]> (<["time_coverage_start" := a]> s))
  else Ok s.

(** One pass of the loop over the columns of a two-dimensional [lon]. *)
Definition column_feature (nc : dataset) (stride : positive) (i : nat) : result feature :=
  vlon ← getvar nc "lon";
  lon ← flatten vlon <$> getitem_stride_col nc vlon stride i;
  let mask := map negb (mask lon) in
  let lon := map astype_float64 (data lon) in
  vlat ← getvar nc "lat";
  lat ← (λ a, map astype_float64 (data (flatten vlat a)))
          <$> getitem_stride_col nc vlat stride i;
  lon_m ← bool_index lon mask;
  let subbool := map lt1000 lon_m in
  lon_ms ← bool_index lon_m subbool;
  lat_m ← bool_index lat mask;
  lat_ms ← bool_index lat_m subbool;
  let coords := zip lon_ms lat_ms in
  s ← coverage_properties nc stride (getncattrs nc);
  if has_var nc "trajectory" then
    vt ← getvar nc "trajectory";
    id ← getitem nc vt i;
    Ok (mk_feature id coords s)
  else Ok (mk_feature (PyNum (I64 (Z.of_nat i))) coords s).

(** The [else] branch: one line for the whole container. *)
Definition single_feature (nc : dataset) (stride : positive) : result feature :=
  vlon ← getvar nc "lon";
  lon ← (λ a, map astype_float64 (data (flatten vlon a))) <$> getitem_stride nc vlon stride;
  vlat ← getvar nc "lat";
  lat ← (λ a, map astype_float64 (data (flatten vlat a))) <$> getitem_stride nc vlat stride;
  let coords := zip (compress lon (map lt1000 lon)) (compress lat (map lt1000 lat)) in
  s ← coverage_properties nc stride (getncattrs nc);
  Ok (mk_feature (default PyNone (s !! "id")) coords s).

(** [geojson(dap)], up to the object [f] that is handed to [gj.dumps]; the
    JSON text, the optional callback wrapper and the HTTP response are
    rendering.  [with Dataset(dap) as nc] reads the container at [dap]. *)
Definition geojson (fs : filesystem) (dap : string) : result gjobject :=
  nc ← match fs !! dap with Some nc => Ok nc | None => Raise IOError end;
  stride ← get_stride nc;
  vlon ← getvar nc "lon";
  if decide (length (var_shape nc vlon) = 2) then
    f ← mapM (column_feature nc stride) (seq 0 (default 0 (var_shape nc vlon !! 1)));
    Ok (FeatureCollection f)
  else
    Feature <$> single_feature nc stride.

(** [geojson_line(dap)] *)
Definition geojson_line (fs : filesystem) (dap : string) : result gjobject :=
  geojson fs dap.

(** ** Index view of a stored variable

    Used to state what a projected line contains. *)

(** The indices that [[::step]] selects on an axis of length [n]. *)
Definition stride_rows (step : positive) (n : nat) : list nat :=
  strided step (seq 0 n).

(** The element of [v] at row-major position [k]. *)
Definition cell (nc : dataset) (v : variable) (k : nat) : scalar :=
  default (fill_of v) (var_elems nc v !! k).

(** Whether the library masks that element on a read. *)
Definition masked_cell (nc : dataset) (v : variable) (k : nat) : bool :=
  scalar_eqb (fill_of v) (cell nc v k).

(** The float64 sample of [v] at position [k], as the projector reads it. *)
Definition sample (nc : dataset) (v : variable) (k : nat) : float :=
  astype_float64 (cell nc v k).

(** The (lon, lat) pairs at the positions [pos r], [r] in [R], whose
    longitude is neither masked nor at or above the threshold, in order. *)
Definition masked_pairs (nc : dataset) (vlon vlat : variable) (pos : nat → nat)
    (R : list nat) : list (float * float) :=
  map (λ r, (sample nc vlon (pos r), sample nc vlat (pos r)))
      (List.filter (λ r, negb (masked_cell nc vlon (pos r))
                         && lt1000 (sample nc vlon (pos r))) R).

(** The features of a projected object. *)
Definition features_of (o : gjobject) : list feature :=
  match o with Feature f => [f] | FeatureCollection fs => fs end.

(** The line the specification words describe: a pair is dropped when its
    longitude is masked or has magnitude at or above 1000. *)
Definition spec_pairs (nc : dataset) (vlon vlat : variable) (pos : nat → nat)
    (R : list nat) : list (float * float) :=
  map (λ r, (sample nc vlon (pos r), sample nc vlat (pos r)))
      (List.filter (λ r, negb (masked_cell nc vlon (pos r))
                         && PrimFloat.ltb (PrimFloat.abs (sample nc vlon (pos r))) 1000%float)
         R).

(** ** Sample containers *)

(** A float64 variable over [dims] holding [xs]. *)
Definition f8_var (dims : list string) (fill : option scalar)
    (attrs : list (string * pyval)) (sh : list nat) (xs : list float) : variable :=
  mk_variable f8 dims None fill attrs (Some (mk_ndarray sh (map F64 xs))).

Definition declared_coverage : list (string * pyval) :=
  [("time_coverage_start", PyStr "2013-07-01 00:00 UTC");
   ("time_coverage_end", PyStr "2013-07-02 00:00 UTC")].

(** A [lon] of 1500 samples that were never assigned. *)
Definition nc_long : dataset :=
  mk_dataset [("time", 1500)] []
    [("lon", mk_variable f8 ["time"] None None [] None)].

(** Four fixes whose third one is the sentinel 1500 in both series. *)
Definition nc_aligned : dataset :=
  mk_dataset [("time", 4)] (("id", PyStr "ru29") :: declared_coverage)
    [("lon", f8_var ["time"] (Some (F64 1500)) [] [4] [10; 20; 1500; 30]%float);
     ("lat", f8_var ["time"] (Some (F64 1500)) [] [4] [1; 2; 1500; 4]%float)].

(** The same fixes with no sentinel among the latitudes. *)
Definition nc_lon_sentinel : dataset :=
  mk_dataset [("time", 4)] declared_coverage
    [("lon", f8_var ["time"] (Some (F64 1500)) [] [4] [10; 20; 1500; 30]%float);
     ("lat", f8_var ["time"] None [] [4] [1; 2; 3; 4]%float)].

(** Three fixes, the second far west of any longitude. *)
Definition nc_negative : dataset :=
  mk_dataset [("time", 3)] declared_coverage
    [("lon", f8_var ["time"] None [] [3] [10; -2000; 30]%float);
     ("lat", f8_var ["time"] None [] [3] [1; 2; 3]%float)].

(** Three times two trajectories, with a [trajectory] variable. *)
Definition nc_grid : dataset :=
  mk_dataset [("time", 3); ("trajectory", 2)] declared_coverage
    [("trajectory",
      mk_variable i2 ["trajectory"] None None []
        (Some (mk_ndarray [2] [I64 7; I64 9])));
     ("lon", f8_var ["time"; "trajectory"] (Some (F64 1500)) [] [3; 2]
               [10; 11; 1500; 21; 30; 3100]%float);
     ("lat", f8_var ["time"; "trajectory"] None [] [3; 2] [1; 2; 3; 4; 5; 6]%float)].

(** Both time candidates, with different samples, and no declared coverage. *)
Definition nc_two_times : dataset :=
  mk_dataset [("time", 2)] []
    [("lon", f8_var ["time"] None [] [2] [10; 20]%float);
     ("lat", f8_var ["time"] None [] [2] [1; 2]%float);
     ("ocean_time", f8_var ["time"] None [("units", PyStr EPOCH_UNITS)] [2] [0; 60]%float);
     ("time", f8_var ["time"] None [("units", PyStr EPOCH_UNITS)] [2] [86400; 86460]%float)].

(** Neither time candidate, and no declared coverage. *)
Definition nc_no_time : dataset :=
  mk_dataset [("time", 2)] []
    [("lon", f8_var ["time"] None [] [2] [10; 20]%float);
     ("lat", f8_var ["time"] None [] [2] [1; 2]%float)].

(** Only the model-time name. *)
Definition nc_ocean_time : dataset :=
  mk_dataset [("time", 2)] []
    [("lon", f8_var ["time"] None [] [2] [10; 20]%float);
     ("lat", f8_var ["time"] None [] [2] [1; 2]%float);
     ("ocean_time", f8_var ["time"] None [("units", PyStr EPOCH_UNITS)] [2] [0; 60]%float)].

(** A start of coverage is declared, an end is not. *)
Definition nc_start_only : dataset :=
  mk_dataset [("time", 2)] [("time_coverage_start", PyStr "2013-07-01 00:00 UTC")]
    [("lon", f8_var ["time"] None [] [2] [10; 20]%float);
     ("lat", f8_var ["time"] None [] [2] [1; 2]%float);
     ("time", f8_var ["time"] None [("units", PyStr EPOCH_UNITS)] [2] [86400; 86460]%float)].

Definition sample_fs : filesystem :=
  {[ "long.nc" := nc_long; "aligned.nc" := nc_aligned; "negative.nc" := nc_negative;
     "grid.nc" := nc_grid; "two_times.nc" := nc_two_times; "no_time.nc" := nc_no_time;
     "ocean_time.nc" := nc_ocean_time; "start_only.nc" := nc_start_only;
     "lon_sentinel.nc" := nc_lon_sentinel ]}.

(** ** Writing a container

    The statements of the writer act on the open container [nc]; a failing
    statement leaves [nc] as it was at that point. *)

Definition W (A : Type) : Type := dataset → result A * dataset.

Global Instance W_ret : MRet W := λ A a nc, (Ok a, nc).
Global Instance W_bind : MBind W := λ A B f m nc,
  match m nc with
  | (Ok a, nc') => f a nc'
  | (Raise e, nc') => (Raise e, nc')
  end.

(** A computation that does not touch the container. *)
Definition lift {A : Type} (r : result A) : W A := λ nc, (r, nc).

(** [assert b] *)
Definition assert_ (b : bool) : W unit :=
  lift (if b then Ok () else Raise AssertionError).

(** [for x in l: body(x)] *)
Fixpoint for_ {A : Type} (l : list A) (body : A → W unit) : W unit :=
  match l with
  | [] => mret ()
  | x :: l' => body x;; for_ l' body
  end.

(** [nc.createDimension(name, size)].  The library makes a dimension of size
    0 unlimited; the model keeps the size it is given. *)
Definition createDimension (name : string) (size : nat) : W unit := λ nc,
  (Ok (), mk_dataset (dimensions nc ++ [(name, size)]) (ncattrs nc) (variables nc)).

(** [nc.setncattr(k, v)] *)
Definition setncattr (k : string) (v : pyval) : W unit := λ nc,
  (Ok (), mk_dataset (dimensions nc) (assoc_set k v (ncattrs nc)) (variables nc)).

(** [nc.createVariable(name, dtype, dims, zlib=.., complevel=.., fill_value=..)];
    the variable is referred to by its name afterwards. *)
Definition createVariable (name : string) (t : dtype) (dims : list string)
    (complevel : option nat) (fill_value : option scalar) : W unit := λ nc,
  (Ok (), mk_dataset (dimensions nc) (ncattrs nc)
            (variables nc ++ [(name, mk_variable t dims complevel fill_value [] None)])).

(** [var.setncattr(k, v)] *)
Definition var_setncattr (name k : string) (v : pyval) : W unit := λ nc,
  (Ok (), mk_dataset (dimensions nc) (ncattrs nc)
            (assoc_alter
               (λ x, mk_variable (var_dtype x) (var_dims x) (var_complevel x) (var_fill x)
                       (assoc_set k v (var_attrs x)) (var_data x))
               name (variables nc))).

(** [if values != None: var[:] = values]; a variable created without data
    is given [None] and stays unassigned. *)
Definition var_assign_if (name : string) (values : option ndarray) : W unit := λ nc,
  (Ok (), mk_dataset (dimensions nc) (ncattrs nc)
            (assoc_alter
               (λ x, mk_variable (var_dtype x) (var_dims x) (var_complevel x) (var_fill x)
                       (var_attrs x)
                       (match values with Some a => Some a | None => var_data x end))
               name (variables nc))).

(** *** Python dictionaries with string keys *)

(** A dictionary display [{k1 : v1, ...}]: a later entry with the same key
    replaces an earlier one. *)
Definition py_dict (items : list (string * pyval)) : gmap string pyval :=
  foldl (λ d kv, <[kv.1 := kv.2]> d) ∅ items.

(** [d[k]] *)
Definition dict_get (d : gmap string pyval) (k : string) : result pyval :=
  match d !! k with Some v => Ok v | None => Raise (KeyError k) end.

(** [sorted(d.keys())] *)
Definition sorted_keys (d : gmap string pyval) : list string :=
  merge_sort String.le (map fst (map_to_list d)).

(** [for k in sorted(atts.keys()): target.setncattr(k, atts[k])] *)
Definition setncattrs_sorted (set : string → pyval → W unit) (atts : gmap string pyval)
  : W unit :=
  for_ (sorted_keys atts) (λ k, v ← lift (dict_get atts k); set k v).

(** *** Reductions and indexing used by the writer *)

Definition scalar_max (a b : scalar) : scalar :=
  match a, b with
  | I64 x, I64 y => I64 (Z.max x y)
  | _, _ =>
      let x := astype_float64 a in
      let y := astype_float64 b in
      F64 (if PrimFloat.is_nan x then x else if PrimFloat.is_nan y then y
           else if PrimFloat.ltb x y then y else x)
  end.

Definition scalar_min (a b : scalar) : scalar :=
  match a, b with
  | I64 x, I64 y => I64 (Z.min x y)
  | _, _ =>
      let x := astype_float64 a in
      let y := astype_float64 b in
      F64 (if PrimFloat.is_nan x then x else if PrimFloat.is_nan y then y
           else if PrimFloat.ltb y x then y else x)
  end.

(** [a.max()] and [a.min()]: an empty array has no extremum. *)
Definition ndarray_max (a : ndarray) : result pyval :=
  match elems a with
  | [] => Raise ValueError
  | x :: l => Ok (PyNum (foldl scalar_max x l))
  end.

Definition ndarray_min (a : ndarray) : result pyval :=
  match elems a with
  | [] => Raise ValueError
  | x :: l => Ok (PyNum (foldl scalar_min x l))
  end.

(** [l[0]] and [l[-1]] on a sequence. *)
Definition first_item {A : Type} (l : list A) : result A :=
  match head l with Some x => Ok x | None => Raise IndexError end.

Definition last_item {A : Type} (l : list A) : result A :=
  match last l with Some x => Ok x | None => Raise IndexError end.

(** *** Arguments of [writer_0_0] *)

Record writer_args : Type := mk_writer_args {
  filename : string;
  timedata : list datetime;
  time_uvdata : list datetime;
  trajectorydata : list Z;
  segment_iddata : ndarray;
  profile_iddata : ndarray;
  depthdata : ndarray;
  latdata : ndarray;
  londata : ndarray;
  pressuredata : ndarray;
  conductivitydata : ndarray;
  densitydata : ndarray;
  salinitydata : ndarray;
  temperaturedata : ndarray;
  udata : ndarray;
  vdata : ndarray;
  lat_uvdata : ndarray;
  lon_uvdata : ndarray;
  time_qcdata : option ndarray;
  u_qcdata : option ndarray;
  v_qcdata : option ndarray;
  depth_qcdata : option ndarray;
  lat_qcdata : option ndarray;
  lon_qcdata : option ndarray;
  pressure_qcdata : option ndarray;
  conductivity_qcdata : option ndarray;
  density_qcdata : option ndarray;
  salinity_qcdata : option ndarray;
  temperature_qcdata : option ndarray;
  kwargs : gmap string pyval }.

(** [req_time_vars] after the loop that appends every supplied quality array
    of [quality_vars]. *)
Definition req_time_vars (a : writer_args) : list ndarray :=
  [depthdata a; latdata a; londata a; pressuredata a; conductivitydata a;
   densitydata a; salinitydata a; temperaturedata a]
  ++ omap id [depth_qcdata a; lat_qcdata a; lon_qcdata a; pressure_qcdata a;
              conductivity_qcdata a; density_qcdata a; salinity_qcdata a;
              temperature_qcdata a].

Definition req_uv_vars (a : writer_args) : list ndarray :=
  [udata a; vdata a; lat_uvdata a; lon_uvdata a].

(** [for var in vars: assert size == var.shape[0]] *)
Definition assert_first_axis (size : nat) (vars : list ndarray) : W unit :=
  for_ vars (λ var, n ← lift (shape0 var); assert_ (bool_decide (size = n))).

(** [dim_tuple] and [uv_tuple] *)
Definition dim_tuple (a : writer_args) : list string :=
  if decide (1 < length (trajectorydata a)) then ["time"; "trajectory"] else ["time"].

Definition uv_tuple (a : writer_args) : list string :=
  if decide (1 < length (trajectorydata a)) then ["time_uv"; "trajectory"]
  else ["time_uv"].

(** *** Global attributes *)

(** The display [global_attributes = {...}]; its computed entries are
    evaluated in the order of the source. *)
Definition global_attributes_display (now : string) (a : writer_args)
  : result (gmap string pyval) :=
  lat_max ← ndarray_max (latdata a);
  lat_min ← ndarray_min (latdata a);
  lon_max ← ndarray_max (londata a);
  lon_min ← ndarray_min (londata a);
  depth_max ← ndarray_max (depthdata a);
  depth_min ← ndarray_min (depthdata a);
  first_time ← (d ← first_item (timedata a); strftime d);
  last_time ← (d ← last_item (timedata a); strftime d);
  Ok (py_dict
    [("Conventions", PyStr "CF-1.6");
     ("Metadata_Conventions", PyStr "Unidata Dataset Discovery v1.0");
     ("acknowledgment", PyStr "This deployment partially supported by ...");
     ("cdm_data_type", PyStr "Trajectory");
     ("comment", PyStr "This file is intended to be used as a template only.  Data is not to be used for scientific purposes.");
     ("contributor_name", PyStr "Scott Glenn, Oscar Schofield, John Kerfoot");
     ("contributor_role", PyStr "Principal Investigator, Principal Investigator, Data Manager");
     ("creator_email", PyStr "kerfoot@marine.rutgers.edu");
     ("creator_name", PyStr "John Kerfoot");
     ("creator_url", PyStr "http://marine.rutgers.edu/cool/auvs");
     ("date_created", PyStr now);
     ("date_issued", PyStr now);
     ("date_modified", PyStr now);
     ("featureType", PyStr "trajectory");
     ("format_version", PyStr "IOOS_Glider_NetCDF_Trajectory_Template_v0.0");
     ("geospatial_lat_max", lat_max);
     ("geospatial_lat_min", lat_min);
     ("geospatial_lat_resolution", PyStr "point");
     ("geospatial_lat_units", PyStr "degrees_north");
     ("geospatial_lon_max", lon_max);
     ("geospatial_lon_min", lon_min);
     ("geospatial_lon_resolution", PyStr "point");
     ("geospatial_lon_units", PyStr "degrees_east");
     ("geospatial_vertical_max", depth_max);
     ("geospatial_vertical_min", depth_min);
     ("geospatial_vertical_positive", PyStr "down");
     ("geospatial_vertical_resolution", PyStr "point");
     ("geospatial_vertical_units", PyStr "meters");
     ("history", PyStr ("Created on " +:+ now));
     ("id", PyStr "");
     ("institution", PyStr "Institute of Marine & Coastal Sciences, Rutgers University");
     ("keywords", PyStr "Oceans > Ocean Pressure > Water Pressure, Oceans > Ocean Temperature > Water Temperature, Oceans > Salinity/Density > Conductivity, Oceans > Salinity/Density > Density, Oceans > Salinity/Density > Salinity");
     ("keywords_vocabulary", PyStr "GCMD Science Keywords");
     ("license", PyStr "This data may be redistributed and used without restriction.");
     ("metadata_link", PyStr "");
     ("naming_authority", PyStr "edu.rutgers.marine");
     ("processing_level", PyStr "Written to file from ioos_glider.writer_0_0()");
     ("project", PyStr "Deployment not project based");
     ("publisher_email", PyStr "kerfoot@marine.rutgers.edu");
     ("publisher_name", PyStr "John Kerfoot");
     ("publisher_url", PyStr "http://marine.rutgers.edu/cool/auvs");
     ("references", PyStr "");
     ("sea_name", PyStr "");
     ("standard_name_vocabulary", PyStr "CF-v25");
     ("source", PyStr "Observational data from a profiling glider");
     ("summary", PyStr "The Rutgers University Coastal Ocean Observation Lab has deployed autonomous underwater gliders around the world since 1990. Gliders are small, free-swimming, unmanned vehicles that use changes in buoyancy to move vertically and horizontally through the water column in a saw-tooth pattern. They are deployed for days to several months and gather detailed information about the physical, chemical and biological processes of the world's The Slocum glider was designed and oceans. built by Teledyne Webb Research Corporation, Falmouth, MA, USA.");
     ("time_coverage_end", PyStr first_time);
     ("time_coverage_resolution", PyStr "point");
     ("time_coverage_start", PyStr last_time);
     ("title", PyStr "Glider Dataset")]).

(** [for key in kwargs.iterkeys(): global_attributes[key] = kwargs[key]] *)
Definition dict_update (d kw : gmap string pyval) : gmap string pyval := kw ∪ d.

(** *** Variables *)

(** The flag values of the quality variables and their meanings. *)
Definition QC_FLAGS : list Z := [0; 1; 2; 3; 4; 5; 6; 7; 8; 9]%Z.

Definition QC_FLAG_MEANINGS : string :=
  "no_qc_performed good_data probably_good_data bad_data_that_are_potentially_correctable bad_data value_changed interpolated_value missing_value".

(** The attribute display of the quality variable of [x]. *)
Definition qc_atts (x : string) : list (string * pyval) :=
  [("long_name", PyStr (x +:+ " Quality Flag"));
   ("standard_name", PyStr (x +:+ " status_flag"));
   ("flag_meanings", PyStr QC_FLAG_MEANINGS);
   ("valid_min", PyNum (I64 (default 0%Z (head QC_FLAGS))));
   ("valid_max", PyNum (I64 (default 0%Z (last QC_FLAGS))));
   ("flag_values", PyArr [length QC_FLAGS] (map I64 QC_FLAGS))].

(** One variable block of the writer: the variable is created, its
    attributes are set in sorted key order, and it is assigned when there is
    data for it ([values] is [None] for an omitted quality array and for the
    two variables that hold no data). *)
Definition define_variable (name : string) (t : dtype) (dims : list string)
    (complevel : option nat) (fill_value : option scalar)
    (atts : list (string * pyval)) (values : option ndarray) : W unit :=
  createVariable name t dims complevel fill_value;;
  setncattrs_sorted (var_setncattr name) (py_dict atts);;
  var_assign_if name values.

(** A quality variable: one byte per element, the default fill value
    declared, assigned only when [if x_qcdata != None] holds. *)
Definition define_qc (x : string) (dims : list string) (values : option ndarray) : W unit :=
  define_variable (x +:+ "_qc") i1 dims (Some COMP_LEVEL) (Some (NC_FILL_VALUES i1))
    (qc_atts x) values.

Definition time_atts (long_name observation_type : string) : list (string * pyval) :=
  [("axis", PyStr "T");
   ("calendar", PyStr "gregorian");
   ("units", PyStr EPOCH_UNITS);
   ("standard_name", PyStr "time");
   ("long_name", PyStr long_name);
   ("observation_type", PyStr observation_type)].

Definition id_atts (comment long_name : string) : list (string * pyval) :=
  [("comment", PyStr comment);
   ("long_name", PyStr long_name);
   ("valid_min", PyNum (I64 1));
   ("valid_max", PyNum (I64 999));
   ("observation_type", PyStr "calculated")].

(** The part of the writer under "Variable Definitions". *)
Definition define_variables (a : writer_args) : W unit :=
  let dim_tuple := dim_tuple a in
  let uv_tuple := uv_tuple a in
  define_variable "time" f8 ["time"] (Some COMP_LEVEL) None
    (time_atts "Time" "measured" ++ [("sensor_name", PyStr "")])
    (Some (mk_ndarray [length (timedata a)] (date2num (timedata a))));;
  define_qc "time" ["time"] (time_qcdata a);;
  define_variable "time_uv" f8 ["time_uv"] (Some COMP_LEVEL) None
    (time_atts "Approximate time midpoint of each segment" "estimated")
    (Some (mk_ndarray [length (time_uvdata a)] (date2num (time_uvdata a))));;
  define_variable "trajectory" i2 ["trajectory"] (Some COMP_LEVEL) None
    [("cf_role", PyStr "trajectory_id");
     ("long_name", PyStr "Unique identifier for each trajectory feature contained in the file");
     ("comment", PyStr "A trajectory can span multiple data files each containing a single segment.")]
    (Some (mk_ndarray [length (trajectorydata a)] (map I64 (trajectorydata a))));;
  define_variable "segment_id" i2 dim_tuple (Some COMP_LEVEL) (Some (NC_FILL_VALUES i2))
    (id_atts "Sequential segment number within a trajectory/deployment. A segment corresponds to the set of data collected between 2 gps fixes obtained when the glider surfaces."
       "Segment ID")
    (Some (segment_iddata a));;
  define_variable "profile_id" i2 dim_tuple (Some COMP_LEVEL) (Some (NC_FILL_VALUES i2))
    (id_atts "Sequential profile number within the current segment. A profile is defined as a single dive or climb"
       "Profile ID")
    (Some (profile_iddata a));;
  define_variable "depth" f8 dim_tuple (Some COMP_LEVEL) (Some (NC_FILL_VALUES f8))
    [("axis", PyStr "Z");
     ("units", PyStr "meters");
     ("standard_name", PyStr "depth");
     ("valid_min", PyNum (I64 0));
     ("valid_max", PyNum (I64 2000));
     ("long_name", PyStr "Depth");
     ("reference_datum", PyStr "sea-surface");
     ("positive", PyStr "down");
     ("observation_type", PyStr "calculated");
     ("ancillary_variables", PyStr "depth_qc");
     ("platform", PyStr "platform");
     ("instrument", PyStr "instrument_ctd");
     ("sensor_name", PyStr "")]
    (Some (depthdata a));;
  define_qc "depth" dim_tuple (depth_qcdata a);;
  define_variable "lat" f8 dim_tuple (Some COMP_LEVEL) (Some (NC_FILL_VALUES f8))
    [("axis", PyStr "Y");
     ("units", PyStr "degrees_north");
     ("standard_name", PyStr "latitude");
     ("long_name", PyStr "Latitude");
     ("flag_meanings", PyStr "");
     ("valid_min", PyNum (F64 (-90)));
     ("valid_max", PyNum (F64 90));
     ("observation_type", PyStr "measured");
     ("ancillary_variables", PyStr "lat_qc");
     ("platform", PyStr "platform");
     ("comment", PyStr "Some values are linearly interpolated between measured coordinates.  See lat_qc");
     ("sensor_name", PyStr "");
     ("reference", PyStr "WGS84");
     ("coordinate_reference_frame", PyStr "urn:ogc:crs:EPSG::4326")]
    (Some (latdata a));;
  define_qc "lat" dim_tuple (lat_qcdata a);;
  define_variable "lon" f8 dim_tuple (Some COMP_LEVEL) (Some (NC_FILL_VALUES f8))
    [("axis", PyStr "X");
     ("units", PyStr "degrees_east");
     ("standard_name", PyStr "longitude");
     ("long_name", PyStr "Longitude");
     ("flag_meanings", PyStr "");
     ("valid_min", PyNum (F64 (-180)));
     ("valid_max", PyNum (F64 180));
     ("observation_type", PyStr "measured");
     ("ancillary_variables", PyStr "lon_qc");
     ("platform", PyStr "platform");
     ("comment", PyStr "Some values are linearly interpolated between measured coordinates.  See lon_qc");
     ("sensor_name", PyStr "");
     ("reference", PyStr "WGS84");
     ("coordinate_reference_frame", PyStr "urn:ogc:crs:EPSG::4326")]
    (Some (londata a));;
  define_qc "lon" dim_tuple (lon_qcdata a);;
  define_variable "pressure" f8 dim_tuple (Some COMP_LEVEL) (Some (NC_FILL_VALUES f8))
    [("axis", PyStr "Z");
     ("units", PyStr "dbar");
     ("standard_name", PyStr "pressure");
     ("valid_min", PyNum (I64 0));
     ("valid_max", PyNum (I64 2000));
     ("long_name", PyStr "Pressure");
     ("reference_datum", PyStr "sea-surface");
     ("positive", PyStr "down");
     ("observation_type", PyStr "calculated");
     ("ancillary_variables", PyStr "pressure_qc");
     ("platform", PyStr "platform");
     ("instrument", PyStr "instrument_ctd");
     ("accuracy", PyStr "");
     ("precision", PyStr "");
     ("resolution", PyStr "");
     ("sensor_name", PyStr "")]
    (Some (pressuredata a));;
  define_qc "pressure" dim_tuple (pressure_qcdata a);;
  define_variable "conductivity" f8 dim_tuple (Some COMP_LEVEL) (Some (NC_FILL_VALUES f8))
    [("units", PyStr "S m-1");
     ("standard_name", PyStr "sea_water_electrical_conductivity");
     ("valid_min", PyNum (F64 0));
     ("valid_max", PyNum (F64 10));
     ("long_name", PyStr "Conductivity");
     ("observation_type", PyStr "measured");
     ("ancillary_variables", PyStr "conductivity_qc");
     ("platform", PyStr "platform");
     ("instrument", PyStr "instrument_ctd");
     ("coordinates", PyStr "lon lat depth time");
     ("accuracy", PyStr "");
     ("precision", PyStr "");
     ("resolution", PyStr "");
     ("sensor_name", PyStr "")]
    (Some (conductivitydata a));;
  define_qc "conductivity" dim_tuple (conductivity_qcdata a);;
  define_variable "density" f8 dim_tuple (Some COMP_LEVEL) (Some (NC_FILL_VALUES f8))
    [("units", PyStr "kg m-3");
     ("standard_name", PyStr "sea_water_density");
     ("valid_min", PyNum (F64 1015));
     ("valid_max", PyNum (F64 1040));
     ("long_name", PyStr "Density");
     ("observation_type", PyStr "calculated");
     ("ancillary_variables", PyStr "density_qc");
     ("platform", PyStr "platform");
     ("instrument", PyStr "instrument_ctd");
     ("coordinates", PyStr "lon lat depth time");
     ("sensor_name", PyStr "")]
    (Some (densitydata a));;
  define_qc "density" dim_tuple (density_qcdata a);;
  define_variable "salinity" f8 dim_tuple (Some COMP_LEVEL) (Some (NC_FILL_VALUES f8))
    [("units", PyStr "1e-3");
     ("standard_name", PyStr "sea_water_salinity");
     ("valid_min", PyNum (F64 0));
     ("valid_max", PyNum (F64 40));
     ("long_name", PyStr "Salinity");
     ("observation_type", PyStr "calculated");
     ("ancillary_variables", PyStr "salinity_qc");
     ("platform", PyStr "platform");
     ("instrument", PyStr "instrument_ctd");
     ("coordinates", PyStr "lon lat depth time");
     ("sensor_name", PyStr "")]
    (Some (salinitydata a));;
  define_qc "salinity" dim_tuple (salinity_qcdata a);;
  define_variable "temperature" f8 dim_tuple (Some COMP_LEVEL) (Some (NC_FILL_VALUES f8))
    [("units", PyStr "Celsius");
     ("standard_name", PyStr "sea_water_temperature");
     ("valid_min", PyNum (F64 (-5)));
     ("valid_max", PyNum (F64 40));
     ("long_name", PyStr "Temperature");
     ("observation_type", PyStr "measured");
     ("ancillary_variables", PyStr "temperature_qc");
     ("platform", PyStr "platform");
     ("instrument", PyStr "instrument_ctd");
     ("coordinates", PyStr "lon lat depth time");
     ("accuracy", PyStr "");
     ("precision", PyStr "");
     ("resolution", PyStr "");
     ("sensor_name", PyStr "")]
    (Some (temperaturedata a));;
  define_qc "temperature" dim_tuple (temperature_qcdata a);;
  define_variable "lat_uv" f8 uv_tuple (Some COMP_LEVEL) (Some (NC_FILL_VALUES f8))
    [("axis", PyStr "Y");
     ("units", PyStr "degrees_north");
     ("standard_name", PyStr "latitude");
     ("long_name", PyStr "Center Latitude for Depth-Averaged Current");
     ("valid_min", PyNum (F64 (-90)));
     ("valid_max", PyNum (F64 90));
     ("observation_type", PyStr "calculated");
     ("platform", PyStr "platform");
     ("comment", PyStr "Values are interpolated to provide the center latitude of the segment")]
    (Some (lat_uvdata a));;
  define_variable "lon_uv" f8 uv_tuple (Some COMP_LEVEL) (Some (NC_FILL_VALUES f8))
    [("axis", PyStr "X");
     ("units", PyStr "degrees_east");
     ("standard_name", PyStr "longitude");
     ("long_name", PyStr "Center Longitude for Depth-Averaged Current");
     ("valid_min", PyNum (F64 (-180)));
     ("valid_max", PyNum (F64 180));
     ("observation_type", PyStr "calculated");
     ("platform", PyStr "platform");
     ("comment", PyStr "Values are interpolated to provide the center longitude of the segment")]
    (Some (lon_uvdata a));;
  define_variable "u" f8 uv_tuple (Some COMP_LEVEL) (Some (NC_FILL_VALUES f8))
    [("units", PyStr "m s-1");
     ("standard_name", PyStr "eastward_sea_water_velocity");
     ("valid_min", PyNum (F64 (-10)));
     ("valid_max", PyNum (F64 10));
     ("long_name", PyStr "Eastward Sea Water Velocity");
     ("observation_type", PyStr "calculated");
     ("coordinates", PyStr "time_uv");
     ("platform", PyStr "platform");
     ("sensor_name", PyStr "");
     ("coordinates", PyStr "lon_uv lat_uv time_uv")]
    (Some (udata a));;
  define_qc "u" uv_tuple (u_qcdata a);;
  define_variable "v" f8 uv_tuple (Some COMP_LEVEL) (Some (NC_FILL_VALUES f8))
    [("units", PyStr "m s-1");
     ("standard_name", PyStr "northward_sea_water_velocity");
     ("valid_min", PyNum (F64 (-10)));
     ("valid_max", PyNum (F64 10));
     ("long_name", PyStr "Northward Sea Water Velocity");
     ("observation_type", PyStr "calculated");
     ("coordinates", PyStr "time_uv");
     ("platform", PyStr "platform");
     ("sensor_name", PyStr "");
     ("coordinates", PyStr "lon_uv lat_uv time_uv")]
    (Some (vdata a));;
  define_qc "v" uv_tuple (v_qcdata a);;
  define_variable "platform" i1 [] None None
    [("type", PyStr "platform");
     ("id", PyStr "ru29");
     ("wmo_id", PyStr "ru29");
     ("comment", PyStr "Slocum Glider ru29");
     ("long_name", PyStr "Slocum Glider ru29");
     ("instrument", PyStr "instrument_ctd")]
    None;;
  define_variable "instrument_ctd" i1 [] None None
    [("serial_number", PyStr "0098");
     ("make_model", PyStr "Seabird SBE 41CP");
     ("comment", PyStr "Slocum Glider ru29");
     ("long_name", PyStr "Seabird SBD 41CP Conductivity, Temperature, Depth Sensor");
     ("platform", PyStr "platform");
     ("calibration_date", PyStr "2000-01-01");
     ("factory_calibrated", PyStr "");
     ("user_calibrated", PyStr "");
     ("calibration_report", PyStr "")]
    None.

(** *** The writer *)

(** The statements of [writer_0_0] between [Dataset(filename, 'w')] and
    [nc.close()]; [now] is the reading of the clock, [t.ctime(t.time())]. *)
Definition writer_body (now : string) (a : writer_args) : W unit :=
  let time_size := length (timedata a) in
  let trajectory_size := length (trajectorydata a) in
  let time_uv_size := length (time_uvdata a) in
  assert_first_axis time_size (req_time_vars a);;
  assert_first_axis time_uv_size (req_uv_vars a);;
  createDimension "time" time_size;;
  createDimension "trajectory" trajectory_size;;
  createDimension "time_uv" time_uv_size;;
  global_attributes ← lift (global_attributes_display now a);
  setncattrs_sorted setncattr (dict_update global_attributes (kwargs a));;
  define_variables a.

(** [writer_0_0(filename, timedata, ..., **kwargs)].  Opening the destination
    for writing comes first and replaces whatever it held by an empty
    container; every later statement acts on that container. *)
Definition writer_0_0 (now : string) (a : writer_args) (fs : filesystem)
  : result unit * filesystem :=
  let '(r, nc) := writer_body now a empty_dataset in
  (r, <[filename a := nc]> fs).

(** ** Sample write calls *)

Definition fix_0 : datetime := mk_datetime 2013 7 9 3 5 0 0.
Definition fix_1 : datetime := mk_datetime 2013 7 9 4 35 0 0.

(** A call with two observations and one current estimate: the time-class
    arrays have shape [sh], the time_uv-class arrays shape [sh_uv]. *)
Definition sample_call (traj : list Z) (sh sh_uv : list nat) (depth : ndarray)
    (depth_qc : option ndarray) (kw : gmap string pyval) : writer_args :=
  {| filename := "glider.nc";
     timedata := [fix_0; fix_1];
     time_uvdata := [fix_0];
     trajectorydata := traj;
     segment_iddata := mk_ndarray sh [I64 1; I64 1];
     profile_iddata := mk_ndarray sh [I64 1; I64 2];
     depthdata := depth;
     latdata := mk_ndarray sh [F64 39.5; F64 39.25];
     londata := mk_ndarray sh [F64 (-73.5); F64 (-73.25)];
     pressuredata := mk_ndarray sh [F64 2; F64 10];
     conductivitydata := mk_ndarray sh [F64 3.5; F64 3.75];
     densitydata := mk_ndarray sh [F64 1024; F64 1025];
     salinitydata := mk_ndarray sh [F64 32; F64 33];
     temperaturedata := mk_ndarray sh [F64 20; F64 18];
     udata := mk_ndarray sh_uv [F64 0.25];
     vdata := mk_ndarray sh_uv [F64 (-0.125)];
     lat_uvdata := mk_ndarray sh_uv [F64 39.375];
     lon_uvdata := mk_ndarray sh_uv [F64 (-73.375)];
     time_qcdata := None;
     u_qcdata := None;
     v_qcdata := None;
     depth_qcdata := depth_qc;
     lat_qcdata := None;
     lon_qcdata := None;
     pressure_qcdata := None;
     conductivity_qcdata := None;
     density_qcdata := None;
     salinity_qcdata := None;
     temperature_qcdata := None;
     kwargs := kw |}.

(** One trajectory, flat arrays, depth flags supplied. *)
Definition call_single : writer_args :=
  sample_call [1%Z] [2] [1] (mk_ndarray [2] [F64 2; F64 10])
    (Some (mk_ndarray [2] [I64 1; I64 4])) ∅.

(** The same with a depth array that is one observation short. *)
Definition call_short_depth : writer_args :=
  sample_call [1%Z] [2] [1] (mk_ndarray [1] [F64 2]) None ∅.


(** A destination that already holds a container. *)
Definition fs_prior : filesystem := {[ "glider.nc" := nc_aligned ]}.

Definition NOW : string := "Tue Jul  9 12:00:00 2013".

(** ** What a successful write leaves *)

(** The validated arrays agree with the lengths of [timedata] and
    [time_uvdata] on their first axis. *)
Definition shapes_agree (a : writer_args) : Prop :=
  Forall (λ var, shape0 var = Ok (length (timedata a))) (req_time_vars a)
  ∧ Forall (λ var, shape0 var = Ok (length (time_uvdata a))) (req_uv_vars a).

(** Nothing stops the write: the shapes agree, and the extrema and the
    coverage strings of the global attributes can be computed. *)
Definition write_ready (now : string) (a : writer_args) : Prop :=
  shapes_agree a ∧ succeeds (global_attributes_display now a).

(** The variables the writer defines, in order. *)
Definition written_variables (a : writer_args) : list (string * variable) :=
  variables (define_variables a empty_dataset).2.

(** The names of the variables created over [dim_tuple] and [uv_tuple]. *)
Definition time_class : list string :=
  ["segment_id"; "profile_id"; "depth"; "depth_qc"; "lat"; "lat_qc"; "lon"; "lon_qc";
   "pressure"; "pressure_qc"; "conductivity"; "conductivity_qc"; "density";
   "density_qc"; "salinity"; "salinity_qc"; "temperature"; "temperature_qc"].

Definition time_uv_class : list string :=
  ["lat_uv"; "lon_uv"; "u"; "u_qc"; "v"; "v_qc"].


(** ** Whole-variable reads and the ROMS conversion *)

(** [v[:]]: the stored samples of [v] under its current shape. *)
Definition getitem_all (nc : dataset) (v : variable) : ndarray :=
  mk_ndarray (var_shape nc v) (var_elems nc v).

(** [v.units] *)
Definition var_units (v : variable) : result string :=
  match assoc "units" (var_attrs v) with
  | Some (PyStr u) => Ok u
  | _ => Raise AttributeError
  end.

(** No stored sample of [v] is the value that marks a missing element: a
    read of [v] masks nothing. *)
Definition no_missing (nc : dataset) (v : variable) : Prop :=
  Forall (λ x, scalar_eqb (fill_of v) x = false) (var_elems nc v).

(** The dictionary that [romssim_read] returns; [roms_datetime] holds the
    entries of the [datetime] array, which has the shape of [roms_time]. *)
Record roms_response : Type := mk_roms_response {
  roms_lon : ndarray;
  roms_lat : ndarray;
  roms_depth : ndarray;
  roms_dens : ndarray;
  roms_temp : ndarray;
  roms_salt : ndarray;
  roms_time : ndarray;
  roms_datetime : list datetime }.

(** The variables [romssim_read] looks up, in the order of its statements. *)
Definition roms_variables : list string :=
  ["lon"; "lat"; "depth"; "rho"; "temp"; "salt"; "ocean_time"].

(** [romssim_read(filename)].  The arrays are the stored samples; a mask
    that the library attaches to a missing sample is not carried along. *)
Definition romssim_read (fs : filesystem) (filename : string) : result roms_response :=
  nc ← match fs !! filename with Some nc => Ok nc | None => Raise IOError end;
  lon ← getitem_all nc <$> getvar nc "lon";
  lat ← getitem_all nc <$> getvar nc "lat";
  depth ← getitem_all nc <$> getvar nc "depth";
  dens ← getitem_all nc <$> getvar nc "rho";
  temp ← getitem_all nc <$> getvar nc "temp";
  salt ← getitem_all nc <$> getvar nc "salt";
  vtime ← getvar nc "ocean_time";
  let time := getitem_all nc vtime in
  units ← var_units vtime;
  datetime ← mapM (λ x, num2date x units) (elems time);
  Ok (mk_roms_response lon lat depth dens temp salt time datetime).

Definition NaN : scalar := F64 PrimFloat.nan.

(** [np.ones_like(x) * np.nan] *)
Definition nan_like (x : ndarray) : ndarray :=
  mk_ndarray (shape x) (map (λ _, NaN) (elems x)).

(** [np.ones(sh) * np.nan] *)
Definition nan_array (sh : list nat) : ndarray :=
  mk_ndarray sh (replicate (shape_size sh) NaN).

(** [np.arange(n)] *)
Definition arange (n : nat) : list Z := map Z.of_nat (seq 0 n).

(** The arguments [romssim_write] hands to [writer_0_0]: [T] is
    [roms["lon"].shape[1]] and [d0] is [roms["datetime"][0]]. *)
Definition romssim_args (output : string) (roms : roms_response) (T : nat) (d0 : datetime)
  : writer_args :=
  let processing_level := "" in
  let source := "" in
  let dummy := nan_like (roms_lon roms) in
  let dummyuv := nan_array [1; T] in
  let dummytimeuv := [d0] in
  let traj := arange T in
  {| filename := output;
     timedata := roms_datetime roms;
     time_uvdata := dummytimeuv;
     trajectorydata := traj;
     segment_iddata := dummy;
     profile_iddata := dummy;
     depthdata := roms_depth roms;
     latdata := roms_lat roms;
     londata := roms_lon roms;
     pressuredata := dummy;
     conductivitydata := dummy;
     densitydata := roms_dens roms;
     salinitydata := roms_salt roms;
     temperaturedata := roms_temp roms;
     udata := dummyuv;
     vdata := dummyuv;
     lat_uvdata := dummyuv;
     lon_uvdata := dummyuv;
     time_qcdata := None;
     u_qcdata := None;
     v_qcdata := None;
     depth_qcdata := None;
     lat_qcdata := None;
     lon_qcdata := None;
     pressure_qcdata := None;
     conductivity_qcdata := None;
     density_qcdata := None;
     salinity_qcdata := None;
     temperature_qcdata := None;
     kwargs := py_dict [("processing_level", PyStr processing_level);
                        ("source", PyStr source)] |}.

(** [romssim_write(filename, output, ver)].  [ocean_time] is taken to be
    one-dimensional, as in the simulation files the function is written
    for: [roms["datetime"][0]] is then the first entry of the array and
    [len(timedata)] the number of its entries. *)
Definition romssim_write (now : string) (filename output ver : string) (fs : filesystem)
  : result unit * filesystem :=
  match romssim_read fs filename with
  | Raise e => (Raise e, fs)
  | Ok roms =>
      if decide (ver = "0.0") then
        match shape (roms_lon roms) !! 1 with
        | None => (Raise IndexError, fs)
        | Some T =>
            match head (roms_datetime roms) with
            | None => (Raise IndexError, fs)
            | Some d0 => writer_0_0 now (romssim_args output roms T d0) fs
            end
        end
      else (Ok (), fs)
  end.

(** ** Vocabulary for statements about a write *)

(** An array holds one element per index of its shape. *)
Definition array_wf (x : ndarray) : Prop := length (elems x) = shape_size (shape x).

(** The data variables and the argument each one is assigned from, with the
    element type it is created with. *)
Definition data_arguments (a : writer_args) : list (string * dtype * ndarray) :=
  [("segment_id", i2, segment_iddata a); ("profile_id", i2, profile_iddata a);
   ("depth", f8, depthdata a); ("lat", f8, latdata a); ("lon", f8, londata a);
   ("pressure", f8, pressuredata a); ("conductivity", f8, conductivitydata a);
   ("density", f8, densitydata a); ("salinity", f8, salinitydata a);
   ("temperature", f8, temperaturedata a); ("lat_uv", f8, lat_uvdata a);
   ("lon_uv", f8, lon_uvdata a); ("u", f8, udata a); ("v", f8, vdata a)].

(** The names of the variables of a written container, in the order of
    their creation. *)
Definition variable_names : list string :=
  ["time"; "time_qc"; "time_uv"; "trajectory"; "segment_id"; "profile_id";
   "depth"; "depth_qc"; "lat"; "lat_qc"; "lon"; "lon_qc"; "pressure"; "pressure_qc";
   "conductivity"; "conductivity_qc"; "density"; "density_qc"; "salinity";
   "salinity_qc"; "temperature"; "temperature_qc"; "lat_uv"; "lon_uv"; "u"; "u_qc";
   "v"; "v_qc"; "platform"; "instrument_ctd"].

(** The three dimensions of a written container. *)
Definition written_dimensions (a : writer_args) : list (string * nat) :=
  [("time", length (timedata a)); ("trajectory", length (trajectorydata a));
   ("time_uv", length (time_uvdata a))].

(** The global attributes of a successful write: the display, updated with
    the keyword arguments. *)
Definition written_attributes (ga : gmap string pyval) (a : writer_args)
  : list (string * pyval) :=
  map (λ k, (k, default PyNone (dict_update ga (kwargs a) !! k)))
      (sorted_keys (dict_update ga (kwargs a))).

(** The stride [get_stride] picks for a leading axis of length [n]. *)
Definition stride_for (n : nat) : positive :=
  if decide (1000 < n) then 200%positive else 1%positive.

(** The index of the last entry that [[::step]] selects on an axis of
    length [n]. *)
Definition last_strided (step : positive) (n : nat) : nat :=
  Pos.to_nat step * ((n - 1) / Pos.to_nat step).

(** [num2date(x, units=v.units).strftime('%Y-%m-%d %H:%M UTC')] on one
    sample [x] of the time variable [v]. *)
Definition formatted_sample (v : variable) (x : scalar) : result pyval :=
  units ← var_units v;
  d ← num2date x units;
  PyStr <$> strftime d.

(** ** More sample calls and containers *)



(** [call_single] with a title, a deployment name and an id of its own. *)
Definition call_kw : writer_args :=
  sample_call [1%Z] [2] [1] (mk_ndarray [2] [F64 2; F64 10]) None
    (py_dict [("title", PyStr "Test deployment"); ("deployment", PyStr "ru29-2013");
              ("id", PyStr "ru29-20130709T0305")]).


(** A simulation output: two times, two floats. *)
Definition nc_roms : dataset :=
  mk_dataset [("ocean_time", 2); ("drifter", 2)] []
    [("lon", f8_var ["ocean_time"; "drifter"] None [] [2; 2] [-73.5; -73.25; -73; -72.75]%float);
     ("lat", f8_var ["ocean_time"; "drifter"] None [] [2; 2] [39.5; 39.25; 39; 38.75]%float);
     ("depth", f8_var ["ocean_time"; "drifter"] None [] [2; 2] [2; 10; 4; 12]%float);
     ("rho", f8_var ["ocean_time"; "drifter"] None [] [2; 2] [1024; 1025; 1024; 1025]%float);
     ("temp", f8_var ["ocean_time"; "drifter"] None [] [2; 2] [20; 18; 19; 17]%float);
     ("salt", f8_var ["ocean_time"; "drifter"] None [] [2; 2] [32; 33; 32; 33]%float);
     ("ocean_time", f8_var ["ocean_time"] None [("units", PyStr EPOCH_UNITS)] [2]
                      [1373339100; 1373344500]%float)].

(** The same output for a single float, stored without a second axis. *)
Definition nc_roms_flat : dataset :=
  mk_dataset [("ocean_time", 2)] []
    [("lon", f8_var ["ocean_time"] None [] [2] [-73.5; -73]%float);
     ("lat", f8_var ["ocean_time"] None [] [2] [39.5; 39]%float);
     ("depth", f8_var ["ocean_time"] None [] [2] [2; 4]%float);
     ("rho", f8_var ["ocean_time"] None [] [2] [1024; 1024]%float);
     ("temp", f8_var ["ocean_time"] None [] [2] [20; 19]%float);
     ("salt", f8_var ["ocean_time"] None [] [2] [32; 32]%float);
     ("ocean_time", f8_var ["ocean_time"] None [("units", PyStr EPOCH_UNITS)] [2]
                      [1373339100; 1373344500]%float)].

(** A simulation output without salinity. *)
Definition nc_roms_no_salt : dataset :=
  mk_dataset [("ocean_time", 2)] []
    [("lon", f8_var ["ocean_time"] None [] [2] [-73.5; -73]%float);
     ("lat", f8_var ["ocean_time"] None [] [2] [39.5; 39]%float);
     ("depth", f8_var ["ocean_time"] None [] [2] [2; 4]%float);
     ("rho", f8_var ["ocean_time"] None [] [2] [1024; 1024]%float);
     ("temp", f8_var ["ocean_time"] None [] [2] [20; 19]%float)].

Definition roms_fs : filesystem :=
  {[ "roms.nc" := nc_roms; "roms_flat.nc" := nc_roms_flat;
     "roms_no_salt.nc" := nc_roms_no_salt; "glider.nc" := nc_aligned ]}.

(** A two-dimensional [lon] with no column, and nothing else. *)
Definition nc_no_columns : dataset :=
  mk_dataset [("time", 3); ("trajectory", 0)] []
    [("lon", mk_variable f8 ["time"; "trajectory"] None None [] None)].

(** A time variable of 1300 samples, one a minute, and no declared
    coverage. *)
Definition nc_long_time : dataset :=
  mk_dataset [("time", 1300)] []
    [("time", mk_variable f8 ["time"] None None [("units", PyStr EPOCH_UNITS)]
                (Some (mk_ndarray [1300]
                         (map (λ k, F64 (float_of_Z (60 * Z.of_nat k))) (seq 0 1300)))))].

(** A time variable without samples. *)
Definition nc_empty_time : dataset :=
  mk_dataset [("time", 0)] []
    [("time", mk_variable f8 ["time"] None None [("units", PyStr EPOCH_UNITS)] None)].

(** A container whose series have no sample, without and with declared
    coverage. *)
Definition nc_empty : dataset :=
  mk_dataset [("time", 0)] [("id", PyStr "ru29")]
    [("time", mk_variable f8 ["time"] None None [("units", PyStr EPOCH_UNITS)] None);
     ("lon", mk_variable f8 ["time"] None None [] None);
     ("lat", mk_variable f8 ["time"] None None [] None)].

Definition nc_empty_declared : dataset :=
  mk_dataset [("time", 0)] (("id", PyStr "ru29") :: declared_coverage)
    [("time", mk_variable f8 ["time"] None None [("units", PyStr EPOCH_UNITS)] None);
     ("lon", mk_variable f8 ["time"] None None [] None);
     ("lat", mk_variable f8 ["time"] None None [] None)].


(** The call [a] with other values for the five arguments that hold the
    segment and profile numbers and the quality flags of [time], [u] and
    [v]. *)
Definition with_unvalidated (a : writer_args) (segment_id profile_id : ndarray)
    (time_qc u_qc v_qc : option ndarray) : writer_args :=
  {| filename := filename a;
     timedata := timedata a;
     time_uvdata := time_uvdata a;
     trajectorydata := trajectorydata a;
     segment_iddata := segment_id;
     profile_iddata := profile_id;
     depthdata := depthdata a;
     latdata := latdata a;
     londata := londata a;
     pressuredata := pressuredata a;
     conductivitydata := conductivitydata a;
     densitydata := densitydata a;
     salinitydata := salinitydata a;
     temperaturedata := temperaturedata a;
     udata := udata a;
     vdata := vdata a;
     lat_uvdata := lat_uvdata a;
     lon_uvdata := lon_uvdata a;
     time_qcdata := time_qc;
     u_qcdata := u_qc;
     v_qcdata := v_qc;
     depth_qcdata := depth_qcdata a;
     lat_qcdata := lat_qcdata a;
     lon_qcdata := lon_qcdata a;
     pressure_qcdata := pressure_qcdata a;
     conductivity_qcdata := conductivity_qcdata a;
     density_qcdata := density_qcdata a;
     salinity_qcdata := salinity_qcdata a;
     temperature_qcdata := temperature_qcdata a;
     kwargs := kwargs a |}.

(** A time variable that has samples and no [units]. *)
Definition nc_no_units : dataset :=
  mk_dataset [("time", 2)] []
    [("lon", f8_var ["time"] None [] [2] [10; 20]%float);
     ("lat", f8_var ["time"] None [] [2] [1; 2]%float);
     ("time", f8_var ["time"] None [] [2] [86400; 86460]%float)].

(** ** Calls that the storage library accepts as they are

    The container above stores an array as it is given.  The library
    behind it converts the elements of an array to the element type of the
    variable, and wants an array that fills the variable. *)

(** The element [x] is of the element type [t]: nothing is converted. *)
Definition fits (t : dtype) (x : scalar) : Prop :=
  match t, x with
  | f8, F64 _ => True
  | i2, I64 z => (-32768 ≤ z ≤ 32767)%Z
  | i1, I64 z => (-128 ≤ z ≤ 127)%Z
  | _, _ => False
  end.

(** The shapes of the variables over [dim_tuple] and over [uv_tuple]. *)
Definition time_class_shape (a : writer_args) : list nat :=
  if decide (1 < length (trajectorydata a))
  then [length (timedata a); length (trajectorydata a)]
  else [length (timedata a)].

Definition time_uv_class_shape (a : writer_args) : list nat :=
  if decide (1 < length (trajectorydata a))
  then [length (time_uvdata a); length (trajectorydata a)]
  else [length (time_uvdata a)].

(** Every array of the call has the shape of the variable it is assigned
    to, and one element per index. *)
Definition conforming (a : writer_args) : Prop :=
  Forall (λ x, shape x = time_class_shape a ∧ array_wf x)
    (segment_iddata a :: profile_iddata a :: req_time_vars a)
  ∧ Forall (λ x, shape x = time_uv_class_shape a ∧ array_wf x)
      (req_uv_vars a ++ omap id [u_qcdata a; v_qcdata a])
  ∧ Forall (λ x, shape x = [length (timedata a)] ∧ array_wf x)
      (omap id [time_qcdata a]).

(** * Properties of the read path *)

(** ** Slices *)

Section SliceFacts.
Context {A B : Type}.
Implicit Types (l : list A) (f : A → B).

Lemma every_from_map f skip step l :
  every_from skip step (map f l) = map f (every_from skip step l).
Proof.
  revert skip; induction l as [|x l IH]; intros [|k]; simpl; auto.
  by rewrite IH.
Qed.

Lemma strided_map f step l : strided step (map f l) = map f (strided step l).
Proof. apply every_from_map. Qed.

Lemma every_from_length skip step l :
  skip < step →
  length (every_from skip step l) = (length l + step - 1 - skip) / step.
Proof.
  revert skip; induction l as [|x l IH]; intros skip Hk; cbn [every_from length].
  - symmetry; apply Nat.div_small; lia.
  - destruct skip as [|k]; cbn [length].
    + rewrite IH by lia.
      replace (length l + step - 1 - (step - 1)) with (length l) by lia.
      replace (S (length l) + step - 1 - 0) with (length l + 1 * step) by lia.
      rewrite Nat.div_add by lia. lia.
    + rewrite IH by lia. f_equal; lia.
Qed.

(** [len(l[::step])] is the ceiling of [len(l) / step]. *)
Lemma strided_length step l :
  length (strided step l) = (length l + Pos.to_nat step - 1) / Pos.to_nat step.
Proof.
  unfold strided. rewrite every_from_length by lia. f_equal; lia.
Qed.

Lemma strided_one l : strided 1 l = l.
Proof.
  unfold strided. change (Pos.to_nat 1) with 1.
  induction l as [|x l IH]; simpl; congruence.
Qed.

Lemma compress_map_filter (f : A → B) (p : A → bool) l :
  compress (map f l) (map p l) = map f (List.filter p l).
Proof.
  induction l as [|x l IH]; simpl; auto.
  destruct (p x); simpl; by rewrite IH.
Qed.



Lemma filter_ext_in_list (p q : A → bool) l :
  (∀ x, x ∈ l → p x = q x) → List.filter p l = List.filter q l.
Proof.
  intros H. apply List.filter_ext_in. intros x Hx. apply H. by apply list_elem_of_In.
Qed.

Lemma take1_drop l k x : l !! k = Some x → take 1 (drop k l) = [x].
Proof.
  revert k; induction l as [|y l IH]; intros [|k] H; simplify_eq/=; auto.
Qed.


Lemma concat_map_singleton (g : B → A) (l : list B) :
  concat (map (λ r, [g r]) l) = map g l.
Proof. induction l; simpl; congruence. Qed.

End SliceFacts.

Lemma zip_map {A B C} (f : A → B) (g : A → C) (l : list A) :
  zip (map f l) (map g l) = map (λ x, (f x, g x)) l.
Proof. induction l; simpl; congruence. Qed.


Lemma elem_of_every_from {A} (x : A) skip step l :
  x ∈ every_from skip step l → x ∈ l.
Proof.
  revert skip; induction l as [|y l IH]; intros skip; simpl; [done|].
  destruct skip as [|k].
  - rewrite !elem_of_cons. intros [->|H]; [by left|right; eauto].
  - intros H. right; eauto.
Qed.

Lemma elem_of_stride_rows r step n : r ∈ stride_rows step n → r < n.
Proof.
  unfold stride_rows, strided. intros H. apply elem_of_every_from in H.
  rewrite elem_of_seq in H. lia.
Qed.

Lemma var_elems_lookup nc v k :
  k < length (var_elems nc v) → var_elems nc v !! k = Some (cell nc v k).
Proof.
  intros H. destruct (lookup_lt_is_Some_2 _ _ H) as [x Hx]. unfold cell. by rewrite Hx.
Qed.

(** Reading a one-dimensional variable: one entry per selected index. *)
Lemma getitem_stride_1d nc v n step :
  var_shape nc v = [n] → var_wf nc v →
  getitem_stride nc v step = Ok (map (λ r, [cell nc v r]) (stride_rows step n)).
Proof.
  intros Hs Hwf. unfold getitem_stride. rewrite Hs. f_equal.
  unfold rows, stride_rows. rewrite strided_map. apply map_ext_in.
  intros r Hr%list_elem_of_In%elem_of_stride_rows.
  unfold chunk. apply take1_drop. rewrite Nat.mul_1_r. apply var_elems_lookup.
  red in Hwf. rewrite Hwf, Hs. simpl. lia.
Qed.


Lemma flatten_cells v (g : nat → scalar) (R : list nat) :
  flatten v (map (λ r, [g r]) R)
  = mk_marray (map g R) (map (λ r, scalar_eqb (fill_of v) (g r)) R).
Proof.
  unfold flatten. rewrite concat_map_singleton. by rewrite map_map.
Qed.

(** ** What the two branches of the projector compute *)

Lemma result_bind_ok {A B} (m : result A) (f : A → result B) (b : B) :
  m ≫= f = Ok b → ∃ a, m = Ok a ∧ f a = Ok b.
Proof. destruct m; simpl; [eauto|done]. Qed.

Lemma result_fmap_ok {A B} (m : result A) (f : A → B) (b : B) :
  f <$> m = Ok b → ∃ a, m = Ok a ∧ b = f a.
Proof. destruct m; simpl; [|done]. intros [= <-]. eauto. Qed.

Lemma mapM_result_inv {A B} (f : A → result B) (l : list A) (ys : list B) :
  mapM f l = Ok ys → Forall2 (λ x y, f x = Ok y) l ys.
Proof.
  revert ys; induction l as [|x l IH]; intros ys; simpl.
  - intros [= <-]. constructor.
  - intros (y & Hy & H)%result_bind_ok. apply result_bind_ok in H as (k & Hk & H).
    injection H as <-. constructor; auto.
Qed.

Ltac rsimpl := cbn [mbind mret fmap result_bind result_ret result_fmap].

Section Projection.
Context (nc : dataset) (stride : positive) (vlon vlat : variable).
Hypothesis Hlon : getvar nc "lon" = Ok vlon.
Hypothesis Hlat : getvar nc "lat" = Ok vlat.
Hypothesis Hwf_lon : var_wf nc vlon.
Hypothesis Hwf_lat : var_wf nc vlat.

(** The one-dimensional branch filters the two series separately. *)
Lemma single_feature_1d n props :
  var_shape nc vlon = [n] → var_shape nc vlat = [n] →
  coverage_properties nc stride (getncattrs nc) = Ok props →
  single_feature nc stride
  = Ok (mk_feature (default PyNone (props !! "id"))
          (zip (map (sample nc vlon)
                  (List.filter (λ r, lt1000 (sample nc vlon r)) (stride_rows stride n)))
               (map (sample nc vlat)
                  (List.filter (λ r, lt1000 (sample nc vlat r)) (stride_rows stride n))))
          props).
Proof.
  intros Hs1 Hs2 Hp. unfold single_feature. rewrite Hlon. rsimpl.
  rewrite (getitem_stride_1d _ _ n) by done. rsimpl.
  rewrite Hlat. rsimpl. rewrite (getitem_stride_1d _ _ n) by done. rsimpl.
  rewrite Hp. rsimpl. rewrite !flatten_cells. cbn [data].
  rewrite !map_map. fold (sample nc vlon) (sample nc vlat).
  by rewrite !compress_map_filter.
Qed.


End Projection.

(** ** The stride *)

(** C4: the projection stride is 200 when the leading axis of [lon] is
    longer than 1000 and 1 otherwise; the strided read then has the ceiling
    of [n / stride] entries.  In particular a length of 500 gives stride 1,
    and a length of 1500 gives stride 200 and 8 strided samples. *)
Theorem get_stride_law (nc : dataset) (v : variable) (n : nat) (inner : list nat) :
  getvar nc "lon" = Ok v →
  var_shape nc v = n :: inner →
  (1000 < n → get_stride nc = Ok 200%positive)
  ∧ (n ≤ 1000 → get_stride nc = Ok 1%positive)
  ∧ (∀ stride, get_stride nc = Ok stride →
       ∃ samples, getitem_stride nc v stride = Ok samples
         ∧ length samples = (n + Pos.to_nat stride - 1) / Pos.to_nat stride)
  ∧ (n = 500 → get_stride nc = Ok 1%positive)
  ∧ (n = 1500 →
       get_stride nc = Ok 200%positive
       ∧ ∃ samples, getitem_stride nc v 200 = Ok samples ∧ length samples = 8).
Proof.
  intros Hv Hs.
  assert (Hst : get_stride nc = Ok (if decide (1000 < n) then 200%positive else 1%positive)).
  { unfold get_stride. rewrite Hv. simpl. by rewrite Hs. }
  assert (Hlen : ∀ stride, ∃ samples, getitem_stride nc v stride = Ok samples
            ∧ length samples = (n + Pos.to_nat stride - 1) / Pos.to_nat stride).
  { intros stride. unfold getitem_stride. rewrite Hs. eexists; split; [done|].
    unfold rows. by rewrite strided_length, length_map, length_seq. }
  split; [|split; [|split; [|split]]].
  - intros H. by rewrite Hst, decide_True.
  - intros H. rewrite Hst, decide_False; [done|lia].
  - intros stride _. apply Hlen.
  - intros ->. by rewrite Hst.
  - intros ->. split; [by rewrite Hst|].
    destruct (Hlen 200%positive) as (s & H1 & H2). by exists s.
Qed.

Lemma get_stride_law_witness :
  get_stride nc_long = Ok 200%positive
  ∧ ∃ samples,
      getitem_stride nc_long (mk_variable f8 ["time"] None None [] None) 200 = Ok samples
      ∧ length samples = 8.
Proof.
  destruct (get_stride_law nc_long (mk_variable f8 ["time"] None None [] None) 1500 []
              eq_refl eq_refl) as (_ & _ & _ & _ & H).
  exact (H eq_refl).
Defined.

(** ** Lines *)

Lemma has_var_getvar nc name :
  has_var nc name = true ↔ ∃ v, getvar nc name = Ok v.
Proof.
  unfold has_var, getvar. destruct (assoc name (variables nc)); split;
    try done; eauto.
  by intros [v Hv].
Qed.

Lemma has_var_false nc name :
  has_var nc name = false ↔ getvar nc name = Raise (KeyError name).
Proof.
  unfold has_var, getvar. by destruct (assoc name (variables nc)).
Qed.


Lemma geojson_single fs dap nc vlon stride :
  fs !! dap = Some nc → get_stride nc = Ok stride → getvar nc "lon" = Ok vlon →
  length (var_shape nc vlon) ≠ 2 →
  geojson fs dap = Feature <$> single_feature nc stride.
Proof.
  intros Hfs Hst Hlon Hr. unfold geojson. rewrite Hfs. rsimpl. rewrite Hst. rsimpl.
  rewrite Hlon. rsimpl. by rewrite decide_False.
Qed.

Lemma geojson_multi fs dap nc vlon stride n t :
  fs !! dap = Some nc → get_stride nc = Ok stride → getvar nc "lon" = Ok vlon →
  var_shape nc vlon = [n; t] →
  geojson fs dap
  = (f ← mapM (column_feature nc stride) (seq 0 t); Ok (FeatureCollection f)).
Proof.
  intros Hfs Hst Hlon Hs. unfold geojson. rewrite Hfs. rsimpl. rewrite Hst. rsimpl.
  rewrite Hlon. rsimpl. rewrite Hs. by rewrite decide_True.
Qed.

(** C1 (amended): for a one-dimensional container whose latitude samples
    reach the threshold exactly where the longitude samples do, and whose
    masked longitude samples store a value that is not below 1000, the
    projected line is made of every stride-th (lon, lat) pair, in order, each
    longitude with the latitude of the same index, and a pair is dropped
    exactly when its longitude is masked or is not below 1000.  The
    comparison is signed: it is not a test of magnitude. *)
Theorem single_line_projection (fs : filesystem) (dap : string) (nc : dataset)
    (vlon vlat : variable) (n : nat) (stride : positive) (props : gmap string pyval) :
  fs !! dap = Some nc →
  getvar nc "lon" = Ok vlon →
  getvar nc "lat" = Ok vlat →
  var_shape nc vlon = [n] →
  var_shape nc vlat = [n] →
  var_wf nc vlon →
  var_wf nc vlat →
  get_stride nc = Ok stride →
  coverage_properties nc stride (getncattrs nc) = Ok props →
  (∀ r, r ∈ stride_rows stride n →
     lt1000 (sample nc vlat r) = lt1000 (sample nc vlon r)) →
  (∀ r, r ∈ stride_rows stride n →
     masked_cell nc vlon r = true → lt1000 (sample nc vlon r) = false) →
  ∃ f, geojson fs dap = Ok (Feature f)
    ∧ geometry f = masked_pairs nc vlon vlat (λ r, r) (stride_rows stride n)
    ∧ ∀ lon lat, (lon, lat) ∈ geometry f ↔
        ∃ r, r ∈ stride_rows stride n
          ∧ lon = sample nc vlon r ∧ lat = sample nc vlat r
          ∧ masked_cell nc vlon r = false ∧ lt1000 lon = true.
Proof.
  intros Hfs Hlon Hlat Hs1 Hs2 Hw1 Hw2 Hst Hp Halign Hmask.
  rewrite (geojson_single fs dap nc vlon stride) by (rewrite ?Hs1; done).
  rewrite (single_feature_1d nc stride vlon vlat Hlon Hlat Hw1 Hw2 n props) by done.
  rsimpl. eexists; split; [done|]. cbn [geometry].
  assert (Hgeo :
    zip (map (sample nc vlon)
           (List.filter (λ r, lt1000 (sample nc vlon r)) (stride_rows stride n)))
        (map (sample nc vlat)
           (List.filter (λ r, lt1000 (sample nc vlat r)) (stride_rows stride n)))
    = masked_pairs nc vlon vlat (λ r, r) (stride_rows stride n)).
  { unfold masked_pairs.
    rewrite (filter_ext_in_list (λ r, lt1000 (sample nc vlat r))
               (λ r, lt1000 (sample nc vlon r))) by done.
    rewrite zip_map. f_equal. apply filter_ext_in_list. intros r Hr.
    destruct (masked_cell nc vlon r) eqn:Hm; simpl; [|done].
    by apply Hmask. }
  split; [done|]. rewrite Hgeo. unfold masked_pairs. intros lon lat.
  rewrite list_elem_of_fmap. split.
  - intros (r & [= -> ->] & Hr). apply list_elem_of_In, List.filter_In in Hr as [Hr Hk].
    apply list_elem_of_In in Hr. apply andb_true_iff in Hk as [Hk1 Hk2].
    exists r. by rewrite negb_true_iff in Hk1.
  - intros (r & Hr & -> & -> & Hm & Hl). exists r. split; [done|].
    apply list_elem_of_In, List.filter_In. split; [by apply list_elem_of_In|].
    by rewrite Hm, Hl.
Qed.

Lemma single_line_projection_witness :
  ∃ f, geojson sample_fs "aligned.nc" = Ok (Feature f)
    ∧ geometry f = [(10, 1); (20, 2); (30, 4)]%float.
Proof.
  destruct (single_line_projection sample_fs "aligned.nc" nc_aligned
              (f8_var ["time"] (Some (F64 1500)) [] [4] [10; 20; 1500; 30]%float)
              (f8_var ["time"] (Some (F64 1500)) [] [4] [1; 2; 1500; 4]%float)
              4 1%positive (getncattrs nc_aligned))
    as (f & Hf & Hg & _).
  - reflexivity.
  - reflexivity.
  - reflexivity.
  - reflexivity.
  - reflexivity.
  - reflexivity.
  - reflexivity.
  - reflexivity.
  - vm_compute. reflexivity.
  - intros r Hr. apply elem_of_stride_rows in Hr.
    do 4 (destruct r as [|r]; [reflexivity|]). lia.
  - intros r Hr. apply elem_of_stride_rows in Hr.
    do 4 (destruct r as [|r]; [vm_compute; congruence|]). lia.
  - exists f. split; [exact Hf|]. rewrite Hg. reflexivity.
Defined.

(** C1, as stated, fails: a longitude of -2000 has magnitude above 1000 and
    is not masked, yet its pair stays on the line. *)
Lemma single_line_keeps_large_negative :
  ∃ f, geojson sample_fs "negative.nc" = Ok (Feature f)
    ∧ geometry f = [(10, 1); (-2000, 2); (30, 3)]%float
    ∧ spec_pairs nc_negative
        (f8_var ["time"] None [] [3] [10; -2000; 30]%float)
        (f8_var ["time"] None [] [3] [1; 2; 3]%float) (λ r, r) (stride_rows 1 3)
      = [(10, 1); (30, 3)]%float
    ∧ geometry f
      ≠ spec_pairs nc_negative
          (f8_var ["time"] None [] [3] [10; -2000; 30]%float)
          (f8_var ["time"] None [] [3] [1; 2; 3]%float) (λ r, r) (stride_rows 1 3).
Proof.
  eexists. split; [vm_compute; reflexivity|]. cbn [geometry].
  split; [reflexivity|]. split; [vm_compute; reflexivity|].
  intros H. apply (f_equal length) in H. vm_compute in H. discriminate.
Qed.

(** Where the two series do not reach the threshold at the same indices,
    the one-dimensional branch pairs a longitude with the latitude of
    another index: here 30, the fourth longitude, with 3, the third
    latitude.  The two-dimensional branch does not (see below). *)
Lemma single_line_misaligned_pairing :
  ∃ f, geojson sample_fs "lon_sentinel.nc" = Ok (Feature f)
    ∧ geometry f = [(10, 1); (20, 2); (30, 3)]%float.
Proof. eexists. split; [vm_compute; reflexivity|]. reflexivity. Qed.



(** ** Time coverage *)

Lemma mapM_result_raise {A B} (f : A → result B) (x : A) (l : list A) (e : exn) :
  f x = Raise e → mapM f (x :: l) = Raise e.
Proof. intros H. simpl. by rewrite H. Qed.

(** C7 (amended): the time variable is [time] whenever it exists and
    [ocean_time] only when [time] is absent; when neither exists the derived
    coverage is the pair (None, None) and nothing fails.  The projection
    fails with a missing-variable error when [lon] is absent, and when [lat]
    is absent from a container whose [lon] has a leading axis (and, if it is
    two-dimensional, at least one column). *)
Theorem time_variable_resolution (nc : dataset) (stride : positive) :
  (has_var nc "time" = true →
     get_time_coverage nc stride = coverage_of nc "time" stride)
  ∧ (has_var nc "time" = false → has_var nc "ocean_time" = true →
     get_time_coverage nc stride = coverage_of nc "ocean_time" stride)
  ∧ (has_var nc "time" = false → has_var nc "ocean_time" = false →
     get_time_coverage nc stride = Ok (PyNone, PyNone))
  ∧ (∀ fs dap, fs !! dap = Some nc → has_var nc "lon" = false →
     geojson fs dap = Raise (KeyError "lon"))
  ∧ (∀ fs dap vlon n inner,
       fs !! dap = Some nc → getvar nc "lon" = Ok vlon →
       var_shape nc vlon = n :: inner → (∀ t, inner = [t] → 0 < t) →
       has_var nc "lat" = false →
       geojson fs dap = Raise (KeyError "lat")).
Proof.
  split; [|split; [|split; [|split]]].
  - intros H. unfold get_time_coverage. rewrite H. by destruct (has_var nc "ocean_time").
  - intros H1 H2. unfold get_time_coverage. by rewrite H1, H2.
  - intros H1 H2. unfold get_time_coverage. by rewrite H1, H2.
  - intros fs dap Hfs Hl. apply has_var_false in Hl.
    unfold geojson. rewrite Hfs. rsimpl. unfold get_stride. by rewrite Hl.
  - intros fs dap vlon n inner Hfs Hlon Hs Hcols Hlat. apply has_var_false in Hlat.
    assert (Hst : get_stride nc
                  = Ok (if decide (1000 < n) then 200%positive else 1%positive)).
    { unfold get_stride. rewrite Hlon. rsimpl. by rewrite Hs. }
    generalize dependent (if decide (1000 < n) then 200%positive else 1%positive).
    intros st Hst.
    destruct (decide (length (var_shape nc vlon) = 2)) as [Hr|Hr].
    + rewrite Hs in Hr. destruct inner as [|t [|? ?]]; try done.
      specialize (Hcols t eq_refl).
      rewrite (geojson_multi fs dap nc vlon _ n t Hfs Hst Hlon Hs).
      destruct t as [|t]; [lia|]. cbn [seq].
      rewrite (mapM_result_raise _ _ _ (KeyError "lat")); [done|].
      unfold column_feature. rewrite Hlon. rsimpl.
      unfold getitem_stride_col. rewrite Hs, decide_True by lia. rsimpl.
      by rewrite Hlat.
    + rewrite (geojson_single fs dap nc vlon _ Hfs Hst Hlon Hr).
      unfold single_feature. rewrite Hlon. rsimpl.
      unfold getitem_stride. rewrite Hs. rsimpl. by rewrite Hlat.
Qed.

Lemma time_variable_resolution_witness :
  get_time_coverage nc_two_times 1
  = Ok (PyStr "1970-01-02 00:00 UTC", PyStr "1970-01-02 00:01 UTC")
  ∧ get_time_coverage nc_ocean_time 1
    = Ok (PyStr "1970-01-01 00:00 UTC", PyStr "1970-01-01 00:01 UTC")
  ∧ get_time_coverage nc_no_time 1 = Ok (PyNone, PyNone)
  ∧ geojson {[ "lon_only.nc" := nc_long ]} "lon_only.nc" = Raise (KeyError "lat")
  ∧ geojson {[ "empty.nc" := empty_dataset ]} "empty.nc" = Raise (KeyError "lon").
Proof.
  split; [|split; [|split; [|split]]].
  - rewrite (proj1 (time_variable_resolution nc_two_times 1) eq_refl).
    vm_compute. reflexivity.
  - destruct (time_variable_resolution nc_ocean_time 1) as (_ & H & _).
    rewrite (H eq_refl eq_refl). vm_compute. reflexivity.
  - destruct (time_variable_resolution nc_no_time 1) as (_ & _ & H & _).
    exact (H eq_refl eq_refl).
  - destruct (time_variable_resolution nc_long 1) as (_ & _ & _ & _ & H).
    apply (H _ _ (mk_variable f8 ["time"] None None [] None) 1500 []);
      try reflexivity. intros t Ht. discriminate Ht.
  - destruct (time_variable_resolution empty_dataset 1) as (_ & _ & _ & H & _).
    apply H; reflexivity.
Defined.

(** C7, as stated, fails twice: with both candidates present the coverage
    comes from [time], not from [ocean_time]; and with neither present the
    projection succeeds, with both coverage properties set to None. *)
Lemma generic_time_wins_and_no_time_passes :
  get_time_coverage nc_two_times 1 = coverage_of nc_two_times "time" 1
  ∧ get_time_coverage nc_two_times 1 ≠ coverage_of nc_two_times "ocean_time" 1
  ∧ coverage_of nc_two_times "ocean_time" 1
    = Ok (PyStr "1970-01-01 00:00 UTC", PyStr "1970-01-01 00:01 UTC")
  ∧ get_time_coverage nc_two_times 1
    = Ok (PyStr "1970-01-02 00:00 UTC", PyStr "1970-01-02 00:01 UTC")
  ∧ has_var nc_no_time "time" = false
  ∧ has_var nc_no_time "ocean_time" = false
  ∧ ∃ f, geojson sample_fs "no_time.nc" = Ok (Feature f)
      ∧ properties f !! "time_coverage_start" = Some PyNone
      ∧ properties f !! "time_coverage_end" = Some PyNone.
Proof.
  split; [vm_compute; reflexivity|]. split; [vm_compute; discriminate|].
  split; [vm_compute; reflexivity|]. split; [vm_compute; reflexivity|].
  split; [reflexivity|]. split; [reflexivity|].
  eexists. split; [vm_compute; reflexivity|]. split; vm_compute; reflexivity.
Qed.

(** ** Declared and derived coverage *)

Lemma getncattrs_lookup nc k : getncattrs nc !! k = assoc k (ncattrs nc).
Proof.
  unfold getncattrs. induction (ncattrs nc) as [|[k' v] l IH]; simpl; [done|].
  destruct (String.eqb_spec k k') as [->|Hne].
  - by rewrite lookup_insert_eq.
  - by rewrite lookup_insert_ne.
Qed.

Lemma coverage_properties_declared nc stride s :
  is_Some (s !! "time_coverage_start") → is_Some (s !! "time_coverage_end") →
  coverage_properties nc stride s = Ok s.
Proof.
  intros [a Ha] [b Hb]. unfold coverage_properties, has_key. by rewrite Ha, Hb.
Qed.

Lemma coverage_properties_derived nc stride s :
  s !! "time_coverage_start" = None ∨ s !! "time_coverage_end" = None →
  coverage_properties nc stride s
  = ('(a, b) ← get_time_coverage nc stride;
     Ok (<["time_coverage_end" := b]> (<["time_coverage_start" := a]> s))).
Proof.
  intros H. unfold coverage_properties, has_key.
  destruct H as [-> | ->]; [done|].
  by destruct (s !! "time_coverage_start").
Qed.

Ltac inv_result :=
  repeat match goal with
  | H : (_ ≫= _) = Ok _ |- _ => apply result_bind_ok in H as (? & ? & H)
  | H : (_ <$> _) = Ok _ |- _ => apply result_fmap_ok in H as (? & ? & ?)
  end.

Lemma column_feature_properties nc stride i f :
  column_feature nc stride i = Ok f →
  coverage_properties nc stride (getncattrs nc) = Ok (properties f).
Proof.
  unfold column_feature. intros H. inv_result.
  destruct (has_var nc "trajectory"); inv_result; by simplify_eq.
Qed.

Lemma single_feature_properties nc stride f :
  single_feature nc stride = Ok f →
  coverage_properties nc stride (getncattrs nc) = Ok (properties f).
Proof.
  unfold single_feature. intros H. inv_result. by simplify_eq.
Qed.

Lemma geojson_properties fs dap nc obj f :
  fs !! dap = Some nc → geojson fs dap = Ok obj → f ∈ features_of obj →
  ∃ stride, get_stride nc = Ok stride
    ∧ coverage_properties nc stride (getncattrs nc) = Ok (properties f).
Proof.
  intros Hfs H Hf. unfold geojson in H. rewrite Hfs in H.
  cbn [mbind result_bind] in H.
  apply result_bind_ok in H as (stride & Hst & H).
  apply result_bind_ok in H as (vlon & Hlon & H).
  exists stride. split; [done|].
  destruct (decide (length (var_shape nc vlon) = 2)).
  - apply result_bind_ok in H as (feats & Hm & H). simplify_eq. simpl in Hf.
    apply mapM_result_inv in Hm.
    apply list_elem_of_lookup in Hf as [i Hi].
    destruct (Forall2_lookup_r _ _ _ _ _ Hm Hi) as (j & _ & Hj).
    by apply column_feature_properties in Hj.
  - apply result_fmap_ok in H as (g & Hg & ->). simpl in Hf.
    apply list_elem_of_singleton in Hf as ->.
    by apply single_feature_properties.
Qed.

(** C8 (amended): when the global attributes declare both
    [time_coverage_start] and [time_coverage_end], every feature returned by
    the read path carries the attribute mapping unchanged, the two declared
    values included, and nothing is derived.  When either key is absent,
    both keys of the returned properties are set to the derived coverage: a
    declared value of the other key is replaced in the returned mapping.
    The read path only ever changes the mapping it returns. *)
Theorem coverage_layering (fs : filesystem) (dap : string) (nc : dataset)
    (obj : gjobject) (f : feature) :
  fs !! dap = Some nc →
  geojson fs dap = Ok obj →
  f ∈ features_of obj →
  (∀ v1 v2,
     assoc "time_coverage_start" (ncattrs nc) = Some v1 →
     assoc "time_coverage_end" (ncattrs nc) = Some v2 →
     properties f = getncattrs nc
     ∧ properties f !! "time_coverage_start" = Some v1
     ∧ properties f !! "time_coverage_end" = Some v2)
  ∧ (assoc "time_coverage_start" (ncattrs nc) = None
     ∨ assoc "time_coverage_end" (ncattrs nc) = None →
     ∃ stride a b,
       get_stride nc = Ok stride
       ∧ get_time_coverage nc stride = Ok (a, b)
       ∧ properties f
         = <["time_coverage_end" := b]> (<["time_coverage_start" := a]> (getncattrs nc))
       ∧ properties f !! "time_coverage_start" = Some a
       ∧ properties f !! "time_coverage_end" = Some b).
Proof.
  intros Hfs Hobj Hf.
  destruct (geojson_properties fs dap nc obj f Hfs Hobj Hf) as (stride & Hst & Hp).
  split.
  - intros v1 v2 H1 H2. rewrite <- getncattrs_lookup in H1, H2.
    rewrite (coverage_properties_declared nc stride _
               (mk_is_Some _ _ H1) (mk_is_Some _ _ H2)) in Hp.
    injection Hp as <-. done.
  - intros H. rewrite <- !getncattrs_lookup in H.
    rewrite coverage_properties_derived in Hp by done.
    apply result_bind_ok in Hp as ([a b] & Hc & Hp). injection Hp as <-.
    exists stride, a, b. split; [done|]. split; [done|]. split; [done|].
    split; [|by rewrite lookup_insert_eq].
    by rewrite lookup_insert_ne, lookup_insert_eq.
Qed.

Lemma coverage_layering_witness :
  ∃ f, geojson sample_fs "aligned.nc" = Ok (Feature f)
    ∧ properties f = getncattrs nc_aligned
    ∧ properties f !! "time_coverage_start" = Some (PyStr "2013-07-01 00:00 UTC")
    ∧ properties f !! "time_coverage_end" = Some (PyStr "2013-07-02 00:00 UTC").
Proof.
  assert (Hg : ∃ f, geojson sample_fs "aligned.nc" = Ok (Feature f)).
  { eexists. vm_compute. reflexivity. }
  destruct Hg as [f Hf]. exists f. split; [exact Hf|].
  apply (proj1 (coverage_layering sample_fs "aligned.nc" nc_aligned (Feature f) f
                  eq_refl Hf ltac:(by left))); reflexivity.
Defined.

(** C8, as stated, fails: with a start of coverage declared and no end, the
    returned start is the derived one, not the declared one. *)
Lemma declared_start_is_replaced :
  assoc "time_coverage_start" (ncattrs nc_start_only)
  = Some (PyStr "2013-07-01 00:00 UTC")
  ∧ ∃ f, geojson sample_fs "start_only.nc" = Ok (Feature f)
      ∧ properties f !! "time_coverage_start" = Some (PyStr "1970-01-02 00:00 UTC")
      ∧ properties f !! "time_coverage_start" ≠ Some (PyStr "2013-07-01 00:00 UTC").
Proof.
  split; [reflexivity|]. eexists. split; [vm_compute; reflexivity|].
  split; [vm_compute; reflexivity|]. vm_compute. discriminate.
Qed.

(** * Properties of the writer *)

(** ** Association lists *)

Section AssocFacts.
Context {V : Type}.
Implicit Types (l : list (string * V)).



End AssocFacts.

(** ** Running the statements *)

Lemma W_bind_ok {A B} (m : W A) (f : A → W B) nc a nc' :
  m nc = (Ok a, nc') → (m ≫= f) nc = f a nc'.
Proof. intros H. unfold mbind, W_bind. by rewrite H. Qed.

Lemma W_bind_raise {A B} (m : W A) (f : A → W B) nc e nc' :
  m nc = (Raise e, nc') → (m ≫= f) nc = (Raise e, nc').
Proof. intros H. unfold mbind, W_bind. by rewrite H. Qed.

(** The first-axis assertions pass when every array agrees. *)
Lemma assert_first_axis_ok size vars nc :
  Forall (λ var, shape0 var = Ok size) vars →
  assert_first_axis size vars nc = (Ok (), nc).
Proof.
  unfold assert_first_axis. induction 1 as [|var vars Hv _ IH]; [done|].
  cbn [for_]. erewrite W_bind_ok; [exact IH|].
  unfold mbind, W_bind, lift, assert_. rewrite Hv.
  by rewrite bool_decide_eq_true_2.
Qed.

(** They fail, leaving the container as it was, as soon as one array with a
    first axis disagrees. *)
Lemma assert_first_axis_fail size vars nc :
  Forall (λ var, ∃ n, shape0 var = Ok n) vars →
  Exists (λ var, shape0 var ≠ Ok size) vars →
  assert_first_axis size vars nc = (Raise AssertionError, nc).
Proof.
  unfold assert_first_axis. intros Hall Hex.
  induction Hall as [|var vars [n Hn] _ IH]; [by apply Exists_nil in Hex|].
  cbn [for_]. destruct (decide (size = n)) as [->|Hne].
  - erewrite W_bind_ok.
    + apply IH. apply Exists_cons in Hex as [Hc|Hc]; [by rewrite Hn in Hc|done].
    + unfold mbind, W_bind, lift, assert_. rewrite Hn.
      by rewrite bool_decide_eq_true_2.
  - apply W_bind_raise. unfold mbind, W_bind, lift, assert_. rewrite Hn.
    by rewrite bool_decide_eq_false_2.
Qed.

(** ** Attributes set from a dictionary *)

Lemma elem_of_sorted_keys (d : gmap string pyval) k :
  k ∈ sorted_keys d ↔ is_Some (d !! k).
Proof.
  unfold sorted_keys. rewrite merge_sort_Permutation.
  rewrite list_elem_of_fmap. split.
  - intros ([k' v] & -> & H). apply elem_of_map_to_list in H. by eexists.
  - intros [v Hv]. exists (k, v). split; [done|]. by apply elem_of_map_to_list.
Qed.


(** ** The variables phase *)

Lemma define_variables_run (a : writer_args) d at_ :
  define_variables a (mk_dataset d at_ [])
  = (Ok (), mk_dataset d at_ (written_variables a)).
Proof.
  unfold written_variables, define_variables.
  generalize (dim_tuple a) (uv_tuple a) (date2num (timedata a))
    (date2num (time_uvdata a)).
  intros dt ut t1 t2. vm_compute. reflexivity.
Qed.

(** ** A write that nothing stops *)



(** ** Validation *)

Lemma first_axis_agree_or_not size vars :
  Forall (λ var, ∃ n, shape0 var = Ok n) vars →
  Forall (λ var, shape0 var = Ok size) vars
  ∨ Exists (λ var, shape0 var ≠ Ok size) vars.
Proof.
  induction 1 as [|var vars [n Hn] _ [IH|IH]].
  - left. constructor.
  - destruct (decide (n = size)) as [->|Hne].
    + left. by constructor.
    + right. left. rewrite Hn. congruence.
  - right. by right.
Qed.

(** C2 (amended): when one of the validated arrays - the eight required
    time-class data arrays, those of their quality arrays that are supplied,
    and the four time_uv-class arrays - disagrees on its first axis with the
    length of [timedata] (of [time_uvdata] for the last four), the write
    fails with an assertion error before any dimension, attribute or
    variable is created.  The destination was opened for writing before the
    check: it then holds an empty container, whatever it held before. *)
Theorem shape_mismatch_aborts (now : string) (a : writer_args) (fs : filesystem) :
  Forall (λ var, ∃ n, shape0 var = Ok n) (req_time_vars a) →
  Forall (λ var, ∃ n, shape0 var = Ok n) (req_uv_vars a) →
  Exists (λ var, shape0 var ≠ Ok (length (timedata a))) (req_time_vars a)
  ∨ Exists (λ var, shape0 var ≠ Ok (length (time_uvdata a))) (req_uv_vars a) →
  writer_0_0 now a fs = (Raise AssertionError, <[filename a := empty_dataset]> fs)
  ∧ (writer_0_0 now a fs).2 !! filename a = Some empty_dataset
  ∧ ∀ other, other ≠ filename a → (writer_0_0 now a fs).2 !! other = fs !! other.
Proof.
  intros Ht Huv Hbad.
  assert (Hrun : writer_0_0 now a fs
                 = (Raise AssertionError, <[filename a := empty_dataset]> fs)).
  { unfold writer_0_0, writer_body.
    destruct (first_axis_agree_or_not (length (timedata a)) _ Ht) as [Hok|Hno].
    - destruct Hbad as [Hbad|Hbad].
      + erewrite W_bind_raise; [done|]. by apply assert_first_axis_fail.
      + erewrite W_bind_ok; [|by apply assert_first_axis_ok].
        erewrite W_bind_raise; [done|]. by apply assert_first_axis_fail.
    - erewrite W_bind_raise; [done|]. by apply assert_first_axis_fail. }
  rewrite Hrun. cbn [snd]. split; [done|]. split.
  - by rewrite lookup_insert_eq.
  - intros other Hne. by rewrite lookup_insert_ne.
Qed.

Lemma shape_mismatch_aborts_witness :
  writer_0_0 NOW call_short_depth fs_prior
  = (Raise AssertionError, <["glider.nc" := empty_dataset]> fs_prior).
Proof.
  apply (shape_mismatch_aborts NOW call_short_depth fs_prior).
  - repeat constructor; eexists; reflexivity.
  - repeat constructor; eexists; reflexivity.
  - left. left. vm_compute. discriminate.
Defined.

(** C2, as stated, fails: the failing call has replaced the container that
    the destination held by an empty one. *)
Lemma failed_write_clobbers_destination :
  fs_prior !! "glider.nc" = Some nc_aligned
  ∧ (writer_0_0 NOW call_short_depth fs_prior).1 = Raise AssertionError
  ∧ (writer_0_0 NOW call_short_depth fs_prior).2 !! "glider.nc" = Some empty_dataset
  ∧ (writer_0_0 NOW call_short_depth fs_prior).2 !! "glider.nc"
    ≠ fs_prior !! "glider.nc".
Proof.
  split; [reflexivity|]. split; [vm_compute; reflexivity|].
  split; [vm_compute; reflexivity|]. vm_compute. discriminate.
Qed.

(** ** Quality variables *)

Ltac abstract_writer_terms a :=
  unfold written_variables, define_variables;
  generalize (dim_tuple a) (uv_tuple a) (date2num (timedata a))
    (date2num (time_uvdata a));
  intros ? ? ? ?.



Lemma call_single_ready : write_ready NOW call_single.
Proof.
  split; [split; repeat constructor|]. vm_compute. exact I.
Defined.


(** ** Dimension layout *)

Lemma time_class_dims (a : writer_args) name :
  name ∈ time_class →
  var_dims <$> assoc name (written_variables a) = Some (dim_tuple a).
Proof.
  unfold time_class. intros H.
  repeat (apply elem_of_cons in H as [H|H];
          [subst name; abstract_writer_terms a; vm_compute; reflexivity|]).
  by apply elem_of_nil in H.
Qed.

Lemma time_uv_class_dims (a : writer_args) name :
  name ∈ time_uv_class →
  var_dims <$> assoc name (written_variables a) = Some (uv_tuple a).
Proof.
  unfold time_uv_class. intros H.
  repeat (apply elem_of_cons in H as [H|H];
          [subst name; abstract_writer_terms a; vm_compute; reflexivity|]).
  by apply elem_of_nil in H.
Qed.



(** ** Coverage attributes *)

Lemma first_item_ok {A} (l : list A) x : first_item l = Ok x → head l = Some x.
Proof. unfold first_item. destruct (head l); by intros [= ->]. Qed.

Lemma last_item_ok {A} (l : list A) x : last_item l = Ok x → last l = Some x.
Proof. unfold last_item. destruct (last l); by intros [= ->]. Qed.

Lemma global_attributes_display_coverage now a ga :
  global_attributes_display now a = Ok ga →
  ∃ d_first d_last s_first s_last,
    head (timedata a) = Some d_first ∧ last (timedata a) = Some d_last
    ∧ strftime d_first = Ok s_first ∧ strftime d_last = Ok s_last
    ∧ ga !! "time_coverage_end" = Some (PyStr s_first)
    ∧ ga !! "time_coverage_start" = Some (PyStr s_last).
Proof.
  unfold global_attributes_display. intros H.
  apply result_bind_ok in H as (lat_max & _ & H).
  apply result_bind_ok in H as (lat_min & _ & H).
  apply result_bind_ok in H as (lon_max & _ & H).
  apply result_bind_ok in H as (lon_min & _ & H).
  apply result_bind_ok in H as (depth_max & _ & H).
  apply result_bind_ok in H as (depth_min & _ & H).
  apply result_bind_ok in H as (s_first & Hf & H).
  apply result_bind_ok in H as (s_last & Hl & H).
  apply result_bind_ok in Hf as (d_first & Hdf & Hsf).
  apply result_bind_ok in Hl as (d_last & Hdl & Hsl).
  apply first_item_ok in Hdf. apply last_item_ok in Hdl.
  injection H as <-. exists d_first, d_last, s_first, s_last.
  repeat (split; [done|]). split; vm_compute; reflexivity.
Qed.



(** ** The second axis *)



(** * Further properties of the writer *)

(** ** Attributes set one after the other *)

Section AssocOrder.
Context {V : Type}.
Implicit Types (l : list (string * V)).

Lemma assoc_set_fresh k v l : assoc k l = None → assoc_set k v l = l ++ [(k, v)].
Proof.
  induction l as [|[k' v'] l IH]; simpl; [done|].
  destruct (String.eqb k k'); [done|]. intros H. by rewrite IH.
Qed.

Lemma assoc_app_fresh k l1 l2 : assoc k l1 = None → assoc k (l1 ++ l2) = assoc k l2.
Proof.
  induction l1 as [|[k' v'] l1 IH]; simpl; [done|].
  destruct (String.eqb k k'); [done|]. exact IH.
Qed.

Lemma assoc_snoc_ne k k' v l : k ≠ k' → assoc k l = None → assoc k (l ++ [(k', v)]) = None.
Proof.
  intros Hne H. rewrite assoc_app_fresh by done. simpl.
  by destruct (String.eqb_spec k k').
Qed.

Lemma assoc_keyed (g : string → V) ks k :
  assoc k (map (λ k, (k, g k)) ks) = if decide (k ∈ ks) then Some (g k) else None.
Proof.
  induction ks as [|k0 ks IH]; cbn [map assoc].
  - destruct (decide (k ∈ [])) as [H|H]; [by apply not_elem_of_nil in H|done].
  - destruct (String.eqb_spec k k0) as [->|Hne].
    + destruct (decide (k0 ∈ k0 :: ks)) as [H|H]; [done|]. destruct H. by left.
    + rewrite IH. destruct (decide (k ∈ ks)) as [Hin|Hnin];
        destruct (decide (k ∈ k0 :: ks)) as [H|H]; try done.
      * destruct H. by right.
      * apply elem_of_cons in H as [H|H]; done.
Qed.

End AssocOrder.

(** Setting fresh keys appends them, in the order of the loop. *)
Lemma for_setncattr_fresh (d : gmap string pyval) (ks : list string) nc :
  NoDup ks →
  (∀ k, k ∈ ks → is_Some (d !! k)) →
  (∀ k, k ∈ ks → assoc k (ncattrs nc) = None) →
  for_ ks (λ k, v ← lift (dict_get d k); setncattr k v) nc
  = (Ok (), mk_dataset (dimensions nc)
              (ncattrs nc ++ map (λ k, (k, default PyNone (d !! k))) ks)
              (variables nc)).
Proof.
  revert nc. induction ks as [|k0 ks IH]; intros nc Hnd Hd Hfresh.
  - cbn [for_ map]. rewrite app_nil_r. by destruct nc.
  - apply NoDup_cons in Hnd as [Hk0 Hnd].
    destruct (Hd k0) as [v0 Hv0]; [by left|].
    cbn [for_]. erewrite W_bind_ok; cycle 1.
    { unfold mbind, W_bind, lift, dict_get, setncattr. by rewrite Hv0. }
    rewrite IH; cbn [dimensions ncattrs variables].
    + rewrite assoc_set_fresh by (apply Hfresh; by left).
      cbn [map]. rewrite Hv0. cbn [default]. by rewrite <- app_assoc.
    + done.
    + intros k Hk. apply Hd. by right.
    + intros k Hk. rewrite assoc_set_fresh by (apply Hfresh; by left).
      apply assoc_snoc_ne; [by intros ->|]. apply Hfresh. by right.
Qed.

Lemma NoDup_sorted_keys (d : gmap string pyval) : NoDup (sorted_keys d).
Proof.
  unfold sorted_keys. rewrite merge_sort_Permutation. apply NoDup_fst_map_to_list.
Qed.

Lemma StronglySorted_sorted_keys (d : gmap string pyval) :
  StronglySorted String.le (sorted_keys d).
Proof. apply StronglySorted_merge_sort; apply _. Qed.

Lemma fst_written_attributes ga a :
  map fst (written_attributes ga a) = sorted_keys (dict_update ga (kwargs a)).
Proof.
  unfold written_attributes. rewrite map_map. cbn [fst]. apply map_id.
Qed.

Lemma assoc_written_attributes ga a k :
  assoc k (written_attributes ga a) = dict_update ga (kwargs a) !! k.
Proof.
  unfold written_attributes.
  rewrite (assoc_keyed (λ k, default PyNone (dict_update ga (kwargs a) !! k))).
  destruct (decide (k ∈ sorted_keys (dict_update ga (kwargs a)))) as [Hin|Hnin].
  - apply elem_of_sorted_keys in Hin as [v ->]. done.
  - rewrite elem_of_sorted_keys in Hnin. symmetry. by apply eq_None_not_Some.
Qed.

(** ** The phases of a write *)

(** The container after validation and the creation of the dimensions. *)
Lemma writer_body_dimensions now a :
  shapes_agree a →
  writer_body now a empty_dataset
  = (global_attributes ← lift (global_attributes_display now a);
     setncattrs_sorted setncattr (dict_update global_attributes (kwargs a));;
     define_variables a) (mk_dataset (written_dimensions a) [] []).
Proof.
  intros [Ht Huv]. unfold writer_body.
  erewrite W_bind_ok; [|by apply assert_first_axis_ok].
  erewrite W_bind_ok; [|by apply assert_first_axis_ok].
  erewrite W_bind_ok; [|reflexivity].
  erewrite W_bind_ok; [|reflexivity].
  erewrite W_bind_ok; [|reflexivity].
  reflexivity.
Qed.

(** A write that nothing stops, with the container it leaves. *)
Lemma writer_0_0_run now a fs ga :
  shapes_agree a →
  global_attributes_display now a = Ok ga →
  writer_0_0 now a fs
  = (Ok (), <[filename a := mk_dataset (written_dimensions a) (written_attributes ga a)
                              (written_variables a)]> fs).
Proof.
  intros Hs Hga. unfold writer_0_0. rewrite writer_body_dimensions by done.
  erewrite W_bind_ok; [|unfold lift; by rewrite Hga].
  unfold setncattrs_sorted. erewrite W_bind_ok; cycle 1.
  { apply for_setncattr_fresh.
    - apply NoDup_sorted_keys.
    - intros k. apply elem_of_sorted_keys.
    - done. }
  cbn [dimensions ncattrs variables app]. fold (written_attributes ga a).
  by rewrite define_variables_run.
Qed.

(** A write stopped while the global attributes are computed. *)
Lemma writer_0_0_display_raises now a fs e :
  shapes_agree a →
  global_attributes_display now a = Raise e →
  writer_0_0 now a fs
  = (Raise e, <[filename a := mk_dataset (written_dimensions a) [] []]> fs).
Proof.
  intros Hs Hga. unfold writer_0_0. rewrite writer_body_dimensions by done.
  erewrite W_bind_raise; [done|]. unfold lift. by rewrite Hga.
Qed.

Lemma write_ready_display now a :
  write_ready now a → ∃ ga, shapes_agree a ∧ global_attributes_display now a = Ok ga.
Proof.
  intros [Hs Hok]. destruct (global_attributes_display now a) as [ga|]; [eauto|done].
Qed.

(** The outcome of the validation loops. *)
Lemma assert_first_axis_cases size vars nc :
  (Forall (λ var, shape0 var = Ok size) vars
   ∧ assert_first_axis size vars nc = (Ok (), nc))
  ∨ (assert_first_axis size vars nc = (Raise AssertionError, nc))
  ∨ (assert_first_axis size vars nc = (Raise IndexError, nc)).
Proof.
  unfold assert_first_axis. induction vars as [|var vars IH]; [by left|].
  cbn [for_]. destruct (shape0 var) as [n|e] eqn:Hn.
  - destruct (decide (size = n)) as [->|Hne].
    + assert (Hstep : (n0 ← lift (Ok n); assert_ (bool_decide (n = n0))) nc
                      = (Ok (), nc)).
      { unfold mbind, W_bind, lift, assert_. by rewrite bool_decide_eq_true_2. }
      destruct IH as [[Hall Hrun]|[Hrun|Hrun]].
      * left. split; [by constructor|].
        erewrite W_bind_ok; [exact Hrun|exact Hstep].
      * right; left. erewrite W_bind_ok; [exact Hrun|exact Hstep].
      * right; right. erewrite W_bind_ok; [exact Hrun|exact Hstep].
    + right; left. apply W_bind_raise. unfold mbind, W_bind, lift, assert_.
      by rewrite bool_decide_eq_false_2.
  - right; right. apply W_bind_raise. unfold mbind, W_bind, lift.
    unfold shape0 in Hn. destruct (shape var); [|done].
    by injection Hn as <-.
Qed.

Lemma call_kw_ready : write_ready NOW call_kw.
Proof.
  split; [split; repeat constructor|]. vm_compute. exact I.
Defined.


Lemma call_single_conforming : conforming call_single.
Proof. repeat split; repeat constructor. Defined.

Lemma call_kw_conforming : conforming call_kw.
Proof. repeat split; repeat constructor. Defined.


(** ** Global attributes *)

(** X1: a successful write of conforming arrays stores the global
    attributes in the alphabetical (byte-wise) order of their names, each
    name once; the names are those of the attribute display together with
    those of the keyword arguments. *)
Theorem global_attributes_alphabetical (now : string) (a : writer_args) (fs : filesystem) :
  write_ready now a →
  conforming a →
  ∃ nc ga,
    global_attributes_display now a = Ok ga
    ∧ writer_0_0 now a fs = (Ok (), <[filename a := nc]> fs)
    ∧ map fst (ncattrs nc) = sorted_keys (dict_update ga (kwargs a))
    ∧ StronglySorted String.le (map fst (ncattrs nc))
    ∧ NoDup (map fst (ncattrs nc))
    ∧ ∀ k, k ∈ map fst (ncattrs nc) ↔ is_Some (ga !! k) ∨ is_Some (kwargs a !! k).
Proof.
  intros (ga & Hs & Hga)%write_ready_display _.
  eexists _, ga. split; [done|]. split; [by apply writer_0_0_run|].
  cbn [ncattrs]. rewrite fst_written_attributes.
  split; [done|]. split; [apply StronglySorted_sorted_keys|].
  split; [apply NoDup_sorted_keys|].
  intros k. rewrite elem_of_sorted_keys. unfold dict_update.
  rewrite lookup_union_is_Some. tauto.
Qed.

Lemma global_attributes_alphabetical_witness :
  ∃ nc, writer_0_0 NOW call_kw fs_prior = (Ok (), <["glider.nc" := nc]> fs_prior)
    ∧ StronglySorted String.le (map fst (ncattrs nc))
    ∧ NoDup (map fst (ncattrs nc))
    ∧ "deployment" ∈ map fst (ncattrs nc)
    ∧ "Conventions" ∈ map fst (ncattrs nc).
Proof.
  destruct (global_attributes_alphabetical NOW call_kw fs_prior call_kw_ready
              call_kw_conforming)
    as (nc & ga & Hga & Hrun & _ & Hsorted & Hnd & Hkeys).
  exists nc. split; [exact Hrun|]. split; [exact Hsorted|]. split; [exact Hnd|].
  split.
  - apply Hkeys. right. vm_compute. eauto.
  - apply Hkeys. left.
    unfold global_attributes_display in Hga.
    repeat (apply result_bind_ok in Hga as (? & _ & Hga)).
    injection Hga as <-. vm_compute. eauto.
Defined.

(** X2: after a successful write of conforming arrays, a keyword argument
    of the call is a global attribute with the value given, whether or not
    the attribute display has the same name; a name that is not a keyword
    argument has the value of the display, and a name in neither is no
    attribute of the file. *)
Theorem keyword_arguments_override (now : string) (a : writer_args) (fs : filesystem) :
  write_ready now a →
  conforming a →
  ∃ nc ga,
    global_attributes_display now a = Ok ga
    ∧ writer_0_0 now a fs = (Ok (), <[filename a := nc]> fs)
    ∧ (∀ k v, kwargs a !! k = Some v → assoc k (ncattrs nc) = Some v)
    ∧ (∀ k, kwargs a !! k = None → assoc k (ncattrs nc) = ga !! k).
Proof.
  intros (ga & Hs & Hga)%write_ready_display _.
  eexists _, ga. split; [done|]. split; [by apply writer_0_0_run|].
  cbn [ncattrs]. split.
  - intros k v Hk. rewrite assoc_written_attributes. unfold dict_update.
    by apply lookup_union_Some_l.
  - intros k Hk. rewrite assoc_written_attributes. unfold dict_update.
    by rewrite lookup_union_r.
Qed.

Lemma keyword_arguments_override_witness :
  ∃ nc, writer_0_0 NOW call_kw fs_prior = (Ok (), <["glider.nc" := nc]> fs_prior)
    ∧ assoc "title" (ncattrs nc) = Some (PyStr "Test deployment")
    ∧ assoc "deployment" (ncattrs nc) = Some (PyStr "ru29-2013")
    ∧ assoc "id" (ncattrs nc) = Some (PyStr "ru29-20130709T0305")
    ∧ assoc "featureType" (ncattrs nc) = Some (PyStr "trajectory").
Proof.
  destruct (keyword_arguments_override NOW call_kw fs_prior call_kw_ready
              call_kw_conforming)
    as (nc & ga & Hga & Hrun & Hkw & Hdef).
  exists nc. split; [exact Hrun|].
  split; [apply Hkw; vm_compute; reflexivity|].
  split; [apply Hkw; vm_compute; reflexivity|].
  split; [apply Hkw; vm_compute; reflexivity|].
  rewrite Hdef by (vm_compute; reflexivity).
  unfold global_attributes_display in Hga.
  repeat (apply result_bind_ok in Hga as (? & _ & Hga)).
  injection Hga as <-. vm_compute. reflexivity.
Defined.

(** ** Writes that cannot succeed *)


Lemma ndarray_min_empty x : elems x = [] → ndarray_min x = Raise ValueError.
Proof. unfold ndarray_min. by intros ->. Qed.








(** ** The variables of a written container *)

Lemma data_variable_written (a : writer_args) name t arr :
  (name, t, arr) ∈ data_arguments a →
  (λ v, (var_dtype v, var_fill v, var_complevel v, var_data v))
    <$> assoc name (written_variables a)
  = Some (t, Some (NC_FILL_VALUES t), Some COMP_LEVEL, Some arr).
Proof.
  unfold data_arguments. intros H.
  repeat (apply elem_of_cons in H as [H|H];
          [injection H as -> -> ->; abstract_writer_terms a; vm_compute; reflexivity|]).
  by apply elem_of_nil in H.
Qed.

Lemma coordinate_variables_written (a : writer_args) :
  assoc "time" (written_variables a)
  = Some (mk_variable f8 ["time"] (Some COMP_LEVEL) None
            (var_attrs (default (mk_variable f8 [] None None [] None)
                          (assoc "time" (written_variables a))))
            (Some (mk_ndarray [length (timedata a)] (date2num (timedata a)))))
  ∧ assoc "time_uv" (written_variables a)
    = Some (mk_variable f8 ["time_uv"] (Some COMP_LEVEL) None
              (var_attrs (default (mk_variable f8 [] None None [] None)
                            (assoc "time_uv" (written_variables a))))
              (Some (mk_ndarray [length (time_uvdata a)] (date2num (time_uvdata a)))))
  ∧ assoc "trajectory" (written_variables a)
    = Some (mk_variable i2 ["trajectory"] (Some COMP_LEVEL) None
              (var_attrs (default (mk_variable f8 [] None None [] None)
                            (assoc "trajectory" (written_variables a))))
              (Some (mk_ndarray [length (trajectorydata a)] (map I64 (trajectorydata a))))).
Proof.
  unfold written_variables, define_variables.
  generalize (dim_tuple a) (uv_tuple a) (date2num (timedata a))
    (date2num (time_uvdata a)) (length (timedata a)) (length (time_uvdata a))
    (length (trajectorydata a)) (map I64 (trajectorydata a)).
  intros. split; [|split]; vm_compute; reflexivity.
Qed.

Lemma writer_0_0_leaves now a fs ga :
  shapes_agree a → global_attributes_display now a = Ok ga →
  ∃ nc, writer_0_0 now a fs = (Ok (), <[filename a := nc]> fs)
    ∧ dimensions nc = written_dimensions a
    ∧ ncattrs nc = written_attributes ga a
    ∧ variables nc = written_variables a.
Proof.
  intros Hs Hga. eexists. split; [by apply writer_0_0_run|]. done.
Qed.

Lemma written_dims_shape a (dims : list string) :
  map (λ d, default 0 (assoc d (written_dimensions a))) dims
  = map (λ d, if String.eqb d "time" then length (timedata a)
              else if String.eqb d "trajectory" then length (trajectorydata a)
              else if String.eqb d "time_uv" then length (time_uvdata a) else 0) dims.
Proof.
  apply map_ext. intros d. unfold written_dimensions. cbn [assoc].
  destruct (String.eqb d "time"); [done|].
  destruct (String.eqb d "trajectory"); [done|].
  by destruct (String.eqb d "time_uv").
Qed.

Lemma ndarray_eta x sh : shape x = sh → mk_ndarray sh (elems x) = x.
Proof. intros <-. by destruct x. Qed.

(** The arrays of a conforming call, by the class of their variable. *)
Lemma conforming_data_argument (a : writer_args) name t arr :
  conforming a → (name, t, arr) ∈ data_arguments a →
  array_wf arr
  ∧ ((name ∈ time_class ∧ shape arr = time_class_shape a)
     ∨ (name ∈ time_uv_class ∧ shape arr = time_uv_class_shape a)).
Proof.
  intros (Hct & Hcu & _) Hin. unfold req_time_vars in Hct. unfold req_uv_vars in Hcu.
  cbn [app] in Hct, Hcu.
  do 10 (let Hs := fresh "Hshape" in let Hw := fresh "Hwf" in
         apply Forall_cons in Hct as [[Hs Hw] Hct]).
  do 4 (let Hs := fresh "Hshape" in let Hw := fresh "Hwf" in
        apply Forall_cons in Hcu as [[Hs Hw] Hcu]).
  clear Hct Hcu. unfold data_arguments in Hin. unfold time_class, time_uv_class.
  repeat (apply elem_of_cons in Hin as [Hin|Hin];
          [injection Hin as -> -> ->; split; [assumption|];
           first [left; split; [repeat first [by left | right]|assumption]
                 |right; split; [repeat first [by left | right]|assumption]]|]).
  by apply elem_of_nil in Hin.
Qed.

Lemma var_shape_written ga a v :
  var_shape (mk_dataset (written_dimensions a) (written_attributes ga a)
               (written_variables a)) v
  = map (λ d, if String.eqb d "time" then length (timedata a)
              else if String.eqb d "trajectory" then length (trajectorydata a)
              else if String.eqb d "time_uv" then length (time_uvdata a) else 0)
        (var_dims v).
Proof. unfold var_shape. cbn [dimensions]. apply written_dims_shape. Qed.

Lemma dim_tuple_shape ga a v :
  var_dims v = dim_tuple a →
  var_shape (mk_dataset (written_dimensions a) (written_attributes ga a)
               (written_variables a)) v = time_class_shape a.
Proof.
  intros Hd. rewrite var_shape_written, Hd. unfold dim_tuple, time_class_shape.
  destruct (decide (1 < length (trajectorydata a))); reflexivity.
Qed.

Lemma uv_tuple_shape ga a v :
  var_dims v = uv_tuple a →
  var_shape (mk_dataset (written_dimensions a) (written_attributes ga a)
               (written_variables a)) v = time_uv_class_shape a.
Proof.
  intros Hd. rewrite var_shape_written, Hd. unfold uv_tuple, time_uv_class_shape.
  destruct (decide (1 < length (trajectorydata a))); reflexivity.
Qed.

(** X5: writing, then reading back.  After a successful write of
    conforming arrays, every data variable has the element type and the
    default fill value of its block, and a whole-variable read returns the
    array that the call gave for it, provided the elements of that array
    are of the element type of the variable.  [time] and [time_uv] return
    the numeric times of the call, [trajectory] the trajectory numbers when
    these are 16-bit integers; none of the three declares a fill value. *)
Theorem stored_arrays_read_back (now : string) (a : writer_args) (fs : filesystem) :
  write_ready now a →
  conforming a →
  ∃ nc, writer_0_0 now a fs = (Ok (), <[filename a := nc]> fs)
    ∧ (∀ name t arr, (name, t, arr) ∈ data_arguments a →
         ∃ v, getvar nc name = Ok v
           ∧ var_dtype v = t
           ∧ var_fill v = Some (NC_FILL_VALUES t)
           ∧ (Forall (fits t) (elems arr) → getitem_all nc v = arr))
    ∧ (∃ v, getvar nc "time" = Ok v ∧ var_fill v = None
         ∧ getitem_all nc v = mk_ndarray [length (timedata a)] (date2num (timedata a)))
    ∧ (∃ v, getvar nc "time_uv" = Ok v ∧ var_fill v = None
         ∧ getitem_all nc v
           = mk_ndarray [length (time_uvdata a)] (date2num (time_uvdata a)))
    ∧ (∃ v, getvar nc "trajectory" = Ok v ∧ var_fill v = None
         ∧ (Forall (λ z, fits i2 (I64 z)) (trajectorydata a) →
            getitem_all nc v
            = mk_ndarray [length (trajectorydata a)] (map I64 (trajectorydata a)))).
Proof.
  intros (ga & Hs & Hga)%write_ready_display Hconf.
  eexists. split; [by apply writer_0_0_run|].
  split; [|split; [|split]].
  - intros name t arr Hin.
    pose proof (data_variable_written a name t arr Hin) as Hw.
    destruct (conforming_data_argument a name t arr Hconf Hin) as [Hwf Hcls].
    unfold getvar. cbn [variables].
    destruct (assoc name (written_variables a)) as [v|] eqn:Hv; [|discriminate Hw].
    injection Hw as H1 H2 _ H4. exists v.
    split; [reflexivity|]. split; [exact H1|]. split; [exact H2|]. intros _.
    unfold getitem_all, var_elems. rewrite H4.
    destruct Hcls as [[Hc Hsh]|[Hc Hsh]].
    + pose proof (time_class_dims a name Hc) as Hd. rewrite Hv in Hd.
      injection Hd as Hd. rewrite (dim_tuple_shape ga a v Hd), <- Hsh.
      by apply ndarray_eta.
    + pose proof (time_uv_class_dims a name Hc) as Hd. rewrite Hv in Hd.
      injection Hd as Hd. rewrite (uv_tuple_shape ga a v Hd), <- Hsh.
      by apply ndarray_eta.
  - destruct (coordinate_variables_written a) as (Ht & _ & _).
    unfold getvar. cbn [variables]. rewrite Ht. eexists.
    split; [reflexivity|]. split; reflexivity.
  - destruct (coordinate_variables_written a) as (_ & Ht & _).
    unfold getvar. cbn [variables]. rewrite Ht. eexists.
    split; [reflexivity|]. split; reflexivity.
  - destruct (coordinate_variables_written a) as (_ & _ & Ht).
    unfold getvar. cbn [variables]. rewrite Ht. eexists.
    split; [reflexivity|]. split; [reflexivity|]. intros _. reflexivity.
Qed.

Lemma stored_arrays_read_back_witness :
  ∃ nc, writer_0_0 NOW call_single fs_prior = (Ok (), <["glider.nc" := nc]> fs_prior)
    ∧ (∃ v, getvar nc "lon" = Ok v
         ∧ getitem_all nc v = mk_ndarray [2] [F64 (-73.5); F64 (-73.25)])
    ∧ (∃ v, getvar nc "trajectory" = Ok v
         ∧ getitem_all nc v = mk_ndarray [1] [I64 1]).
Proof.
  destruct (stored_arrays_read_back NOW call_single fs_prior call_single_ready
              call_single_conforming)
    as (nc & Hrun & Hdata & _ & _ & Htraj).
  exists nc. split; [exact Hrun|]. split.
  - destruct (Hdata "lon" f8 (londata call_single)) as (v & Hv & _ & _ & He).
    { unfold data_arguments. do 4 right. left. }
    exists v. split; [exact Hv|]. apply He. repeat constructor.
  - destruct Htraj as (v & Hv & _ & He). exists v. split; [exact Hv|].
    apply He. repeat constructor; simpl; lia.
Defined.

Lemma written_variable_names (a : writer_args) :
  map fst (written_variables a) = variable_names.
Proof. abstract_writer_terms a. vm_compute. reflexivity. Qed.

Lemma container_variables_written (a : writer_args) name :
  name ∈ ["platform"; "instrument_ctd"] →
  (λ v, (var_dtype v, var_dims v, var_complevel v, var_fill v, var_data v))
    <$> assoc name (written_variables a)
  = Some (i1, [], None, None, None).
Proof.
  intros H.
  repeat (apply elem_of_cons in H as [H|H];
          [subst name; abstract_writer_terms a; vm_compute; reflexivity|]).
  by apply elem_of_nil in H.
Qed.

(** X6: whatever the conforming arrays and whichever quality arrays are
    omitted, a successful write creates the same thirty variables, in the
    same order, each name once.  The last two, [platform] and [instrument_ctd], are
    single bytes without dimension, compression or declared fill value, and
    are never assigned: a read finds the default fill value. *)
Theorem variable_inventory (now : string) (a : writer_args) (fs : filesystem) :
  write_ready now a →
  conforming a →
  ∃ nc, writer_0_0 now a fs = (Ok (), <[filename a := nc]> fs)
    ∧ map fst (variables nc) = variable_names
    ∧ NoDup (map fst (variables nc))
    ∧ length (variables nc) = 30
    ∧ ∀ name, name ∈ ["platform"; "instrument_ctd"] →
        ∃ v, getvar nc name = Ok v
          ∧ var_dtype v = i1 ∧ var_dims v = [] ∧ var_complevel v = None
          ∧ var_fill v = None ∧ var_data v = None
          ∧ getitem_all nc v = mk_ndarray [] [NC_FILL_VALUES i1].
Proof.
  intros (ga & Hs & Hga)%write_ready_display _.
  destruct (writer_0_0_leaves now a fs ga Hs Hga) as (nc & Hrun & Hd & _ & Hv).
  exists nc. split; [exact Hrun|]. rewrite Hv.
  split; [apply written_variable_names|].
  split; [rewrite written_variable_names; apply (bool_decide_unpack _); vm_compute; exact I|].
  split.
  { rewrite <- (length_map fst), written_variable_names. reflexivity. }
  intros name Hin. pose proof (container_variables_written a name Hin) as Hw.
  unfold getvar. rewrite Hv.
  destruct (assoc name (written_variables a)) as [v|]; [|done].
  injection Hw as H1 H2 H3 H4 H5. exists v.
  repeat (split; [done|]).
  unfold getitem_all, var_elems, var_shape, fill_of. by rewrite H2, H5, H4, H1.
Qed.

Lemma variable_inventory_witness :
  ∃ nc, writer_0_0 NOW call_single fs_prior = (Ok (), <["glider.nc" := nc]> fs_prior)
    ∧ map fst (variables nc) = variable_names
    ∧ ∃ v, getvar nc "platform" = Ok v
        ∧ getitem_all nc v = mk_ndarray [] [I64 (-127)].
Proof.
  destruct (variable_inventory NOW call_single fs_prior call_single_ready
              call_single_conforming)
    as (nc & Hrun & Hnames & _ & _ & Hc).
  exists nc. split; [exact Hrun|]. split; [exact Hnames|].
  destruct (Hc "platform") as (v & Hv & _ & _ & _ & _ & _ & Hg); [by left|].
  exists v. split; [exact Hv|exact Hg].
Defined.

Lemma written_attribute_names (a : writer_args) :
  Forall (λ names, StronglySorted String.le names ∧ NoDup names)
    (map (λ nv, map fst (var_attrs nv.2)) (written_variables a)).
Proof.
  abstract_writer_terms a.
  match goal with
  | |- Forall ?P ?l =>
      let l' := eval vm_compute in l in
      assert (Hl : l = l') by (vm_compute; reflexivity); rewrite Hl; clear Hl
  end.
  repeat (apply Forall_cons; split; [split; apply (bool_decide_unpack _); vm_compute; exact I|]).
  constructor.
Qed.

Lemma velocity_coordinates_written (a : writer_args) name :
  name ∈ ["u"; "v"] →
  (λ v, assoc "coordinates" (var_attrs v)) <$> assoc name (written_variables a)
  = Some (Some (PyStr "lon_uv lat_uv time_uv")).
Proof.
  intros H.
  repeat (apply elem_of_cons in H as [H|H];
          [subst name; abstract_writer_terms a; vm_compute; reflexivity|]).
  by apply elem_of_nil in H.
Qed.

(** X7: after a successful write of conforming arrays, the attributes of
    every variable are stored in the alphabetical order of their names,
    each name once.  The
    attribute displays of [u] and [v] give [coordinates] twice: the stored
    value is the second one. *)
Theorem variable_attributes_alphabetical (now : string) (a : writer_args)
    (fs : filesystem) :
  write_ready now a →
  conforming a →
  ∃ nc, writer_0_0 now a fs = (Ok (), <[filename a := nc]> fs)
    ∧ (∀ name v, getvar nc name = Ok v →
         StronglySorted String.le (map fst (var_attrs v))
         ∧ NoDup (map fst (var_attrs v)))
    ∧ ∀ name, name ∈ ["u"; "v"] →
        ∃ v, getvar nc name = Ok v
          ∧ assoc "coordinates" (var_attrs v) = Some (PyStr "lon_uv lat_uv time_uv").
Proof.
  intros (ga & Hs & Hga)%write_ready_display _.
  destruct (writer_0_0_leaves now a fs ga Hs Hga) as (nc & Hrun & Hd & _ & Hv).
  exists nc. split; [exact Hrun|]. unfold getvar. rewrite Hv. split.
  - intros name v Hname.
    destruct (assoc name (written_variables a)) as [v'|] eqn:Ha; [|discriminate Hname].
    injection Hname as ->.
    pose proof (written_attribute_names a) as Hall.
    rewrite Forall_forall in Hall. apply Hall.
    apply list_elem_of_fmap. exists (name, v). split; [done|].
    clear -Ha. induction (written_variables a) as [|[k w] l IH]; [done|].
    simpl in Ha. destruct (String.eqb_spec name k) as [->|Hne].
    + injection Ha as ->. by left.
    + right. by apply IH.
  - intros name Hin. pose proof (velocity_coordinates_written a name Hin) as Hw.
    destruct (assoc name (written_variables a)) as [v|]; [|done].
    injection Hw as Hw. exists v. split; [reflexivity|exact Hw].
Qed.

Lemma variable_attributes_alphabetical_witness :
  ∃ nc, writer_0_0 NOW call_single fs_prior = (Ok (), <["glider.nc" := nc]> fs_prior)
    ∧ ∃ v, getvar nc "u" = Ok v
        ∧ map fst (var_attrs v)
          = ["coordinates"; "long_name"; "observation_type"; "platform"; "sensor_name";
             "standard_name"; "units"; "valid_max"; "valid_min"]
        ∧ assoc "coordinates" (var_attrs v) = Some (PyStr "lon_uv lat_uv time_uv").
Proof.
  destruct (variable_attributes_alphabetical NOW call_single fs_prior call_single_ready
              call_single_conforming)
    as (nc & Hrun & _ & Hc).
  exists nc. split; [exact Hrun|].
  destruct (Hc "u") as (v & Hv & Hcoord); [by left|].
  exists v. split; [exact Hv|]. split; [|exact Hcoord].
  assert (Hnc : (writer_0_0 NOW call_single fs_prior).2 !! "glider.nc" = Some nc).
  { rewrite Hrun. cbn [snd]. apply lookup_insert_eq. }
  vm_compute in Hnc. injection Hnc as <-. vm_compute in Hv. injection Hv as <-.
  reflexivity.
Defined.

(** * Further properties of the read path *)

(** ** Positions of the strided entries *)

Lemma every_from_lookup {A} (skip step j : nat) (l : list A) :
  0 < step → every_from skip step l !! j = l !! (skip + j * step).
Proof.
  intros Hs. revert skip j. induction l as [|x l IH]; intros skip j; [done|].
  cbn [every_from]. destruct skip as [|k].
  - destruct j as [|j]; [done|]. cbn [lookup list_lookup]. rewrite IH.
    replace (0 + S j * step) with (S (step - 1 + j * step)) by lia. done.
  - rewrite IH. done.
Qed.

(** The [j]-th entry of [l[::step]] is the entry of [l] at [j * step]. *)
Lemma strided_lookup {A} (step : positive) (j : nat) (l : list A) :
  strided step l !! j = l !! (j * Pos.to_nat step).
Proof. unfold strided. rewrite every_from_lookup by lia. done. Qed.

Lemma strided_head {A} (step : positive) (l : list A) : head (strided step l) = head l.
Proof. rewrite !head_lookup, strided_lookup. done. Qed.

(** The last entry of [l[::step]]. *)
Lemma strided_last {A} (step : positive) (l : list A) :
  l ≠ [] → last (strided step l) = l !! last_strided step (length l).
Proof.
  intros Hl. rewrite last_lookup, strided_lookup, strided_length.
  unfold last_strided. f_equal.
  assert (0 < length l) by (destruct l; [done|simpl; lia]).
  set (s := Pos.to_nat step). assert (0 < s) by (unfold s; lia).
  replace (length l + s - 1) with (length l - 1 + 1 * s) by lia.
  rewrite Nat.div_add by lia.
  replace (Init.Nat.pred ((length l - 1) / s + 1)) with ((length l - 1) / s) by lia.
  lia.
Qed.

Lemma last_strided_bound (step : positive) (n : nat) : last_strided step n ≤ n - 1.
Proof. unfold last_strided. apply Nat.Div0.mul_div_le. Qed.

Lemma last_strided_exact (step : positive) (n : nat) :
  last_strided step n = n - 1 ↔ (n - 1) mod Pos.to_nat step = 0.
Proof.
  unfold last_strided.
  pose proof (Nat.div_mod_eq (n - 1) (Pos.to_nat step)). lia.
Qed.

(** ** Derived coverage *)

Lemma coverage_bound_sample nc v n x :
  var_shape nc v = [n] → coverage_bound nc v (Some [x]) = formatted_sample v x.
Proof.
  intros Hs. unfold coverage_bound, formatted_sample, var_units. rsimpl.
  by rewrite Hs.
Qed.

Lemma coverage_of_samples nc tname v n step :
  getvar nc tname = Ok v → var_shape nc v = [n] → var_wf nc v → 0 < n →
  coverage_of nc tname step
  = (a ← formatted_sample v (cell nc v 0);
     b ← formatted_sample v (cell nc v (last_strided step n));
     Ok (a, b)).
Proof.
  intros Hv Hs Hwf Hn. unfold coverage_of. rewrite Hv. rsimpl.
  rewrite (getitem_stride_1d nc v n step Hs Hwf). rsimpl.
  assert (Hhead : head (map (λ r, [cell nc v r]) (stride_rows step n))
                  = Some [cell nc v 0]).
  { unfold stride_rows. rewrite head_lookup, list_lookup_fmap, <- head_lookup.
    rewrite strided_head. destruct n; [lia|done]. }
  assert (Hlast : last (map (λ r, [cell nc v r]) (stride_rows step n))
                  = Some [cell nc v (last_strided step n)]).
  { unfold stride_rows. rewrite fmap_last.
    rewrite strided_last by (destruct n; [lia|done]).
    rewrite length_seq, lookup_seq_lt; [done|].
    pose proof (last_strided_bound step n). lia. }
  rewrite Hhead, Hlast. by rewrite !(coverage_bound_sample nc v n).
Qed.

(** X8: for a one-dimensional time variable of [n] > 0 samples - [time], or
    [ocean_time] when there is no [time] - whose first and last selected
    samples are not missing, the derived coverage is made of
    the formatted sample 0 and the formatted sample at index
    [step * ((n - 1) / step)], the last one that the stride selects.  That
    index is the last sample of the series only when [step] divides
    [n - 1]. *)
Theorem derived_coverage_samples (nc : dataset) (tname : string) (v : variable)
    (n : nat) (step : positive) :
  tname = "time" ∨ (tname = "ocean_time" ∧ has_var nc "time" = false) →
  getvar nc tname = Ok v →
  var_shape nc v = [n] →
  var_wf nc v →
  0 < n →
  masked_cell nc v 0 = false →
  masked_cell nc v (last_strided step n) = false →
  get_time_coverage nc step
  = (a ← formatted_sample v (cell nc v 0);
     b ← formatted_sample v (cell nc v (last_strided step n));
     Ok (a, b))
  ∧ last_strided step n ≤ n - 1
  ∧ (last_strided step n = n - 1 ↔ (n - 1) mod Pos.to_nat step = 0).
Proof.
  intros Hname Hv Hs Hwf Hn _ _.
  split; [|split; [apply last_strided_bound|apply last_strided_exact]].
  rewrite <- (coverage_of_samples nc tname v n step Hv Hs Hwf Hn).
  assert (Hh : has_var nc tname = true) by (apply has_var_getvar; eauto).
  unfold get_time_coverage. destruct Hname as [->|[-> Hno]].
  - rewrite Hh. by destruct (has_var nc "ocean_time").
  - by rewrite Hh, Hno.
Qed.

Lemma derived_coverage_samples_witness :
  get_time_coverage nc_long_time 200
  = Ok (PyStr "1970-01-01 00:00 UTC", PyStr "1970-01-01 20:00 UTC")
  ∧ last_strided 200 1300 = 1200.
Proof.
  destruct (derived_coverage_samples nc_long_time "time"
              (mk_variable f8 ["time"] None None [("units", PyStr EPOCH_UNITS)]
                 (Some (mk_ndarray [1300]
                          (map (λ k, F64 (float_of_Z (60 * Z.of_nat k))) (seq 0 1300)))))
              1300 200)
    as (Hc & _ & _).
  - by left.
  - reflexivity.
  - reflexivity.
  - vm_compute. reflexivity.
  - lia.
  - vm_compute. reflexivity.
  - vm_compute. reflexivity.
  - split; [|reflexivity]. rewrite Hc. vm_compute. reflexivity.
Defined.

(** ** Containers without samples *)

Lemma get_stride_shape nc v n inner :
  getvar nc "lon" = Ok v → var_shape nc v = n :: inner →
  get_stride nc = Ok (stride_for n).
Proof. intros Hv Hs. unfold get_stride, stride_for. rewrite Hv. rsimpl. by rewrite Hs. Qed.

Lemma getitem_stride_empty nc v step inner :
  var_shape nc v = 0 :: inner → getitem_stride nc v step = Ok [].
Proof. intros Hs. unfold getitem_stride. by rewrite Hs. Qed.

(** X9: a one-dimensional container without samples projects to a feature
    with an empty line when both coverage attributes are declared.  When
    one is not declared and the time variable has no sample, the projection
    fails with an index error: the coverage cannot be derived. *)
Theorem empty_container_projection (fs : filesystem) (dap : string) (nc : dataset)
    (vlon vlat : variable) :
  fs !! dap = Some nc →
  getvar nc "lon" = Ok vlon →
  getvar nc "lat" = Ok vlat →
  var_shape nc vlon = [0] →
  var_shape nc vlat = [0] →
  (is_Some (assoc "time_coverage_start" (ncattrs nc)) →
   is_Some (assoc "time_coverage_end" (ncattrs nc)) →
   geojson fs dap
   = Ok (Feature (mk_feature (default PyNone (assoc "id" (ncattrs nc))) []
                    (getncattrs nc))))
  ∧ (assoc "time_coverage_start" (ncattrs nc) = None
     ∨ assoc "time_coverage_end" (ncattrs nc) = None →
     ∀ vt inner, getvar nc "time" = Ok vt → var_shape nc vt = 0 :: inner →
     geojson fs dap = Raise IndexError).
Proof.
  intros Hfs Hlon Hlat Hs1 Hs2.
  assert (Hst : get_stride nc = Ok 1%positive).
  { by rewrite (get_stride_shape nc vlon 0 []). }
  assert (Hg : geojson fs dap = Feature <$> single_feature nc 1).
  { apply (geojson_single fs dap nc vlon); try done. by rewrite Hs1. }
  assert (Hf : single_feature nc 1
               = (s ← coverage_properties nc 1 (getncattrs nc);
                  Ok (mk_feature (default PyNone (s !! "id")) [] s))).
  { unfold single_feature. rewrite Hlon, Hlat. rsimpl.
    by rewrite !(getitem_stride_empty _ _ _ []). }
  rewrite Hg, Hf. split.
  - intros H1 H2. rewrite <- !getncattrs_lookup in H1, H2.
    rewrite coverage_properties_declared by done. rsimpl.
    by rewrite getncattrs_lookup.
  - intros Hno vt inner Hvt Hst'. rewrite <- !getncattrs_lookup in Hno.
    rewrite coverage_properties_derived by done.
    assert (Hc : get_time_coverage nc 1 = Raise IndexError).
    { assert (Hh : has_var nc "time" = true) by (apply has_var_getvar; eauto).
      unfold get_time_coverage. rewrite Hh.
      assert (Hcov : coverage_of nc "time" 1 = Raise IndexError).
      { unfold coverage_of. rewrite Hvt. rsimpl.
        by rewrite (getitem_stride_empty _ _ _ inner). }
      by destruct (has_var nc "ocean_time"). }
    by rewrite Hc.
Qed.

Lemma empty_container_projection_witness :
  geojson {[ "empty.nc" := nc_empty_declared ]} "empty.nc"
  = Ok (Feature (mk_feature (PyStr "ru29") [] (getncattrs nc_empty_declared)))
  ∧ geojson {[ "empty.nc" := nc_empty ]} "empty.nc" = Raise IndexError.
Proof.
  split.
  - apply (empty_container_projection {[ "empty.nc" := nc_empty_declared ]} "empty.nc"
             nc_empty_declared
             (mk_variable f8 ["time"] None None [] None)
             (mk_variable f8 ["time"] None None [] None));
      try reflexivity; by eexists.
  - destruct (empty_container_projection {[ "empty.nc" := nc_empty ]} "empty.nc"
                nc_empty
                (mk_variable f8 ["time"] None None [] None)
                (mk_variable f8 ["time"] None None [] None)) as [_ H];
      [reflexivity|reflexivity|reflexivity|reflexivity|reflexivity|].
    apply (H (or_introl eq_refl)
             (mk_variable f8 ["time"] None None [("units", PyStr EPOCH_UNITS)] None)
             []); reflexivity.
Defined.

(** X10: a two-dimensional [lon] whose second axis has length 0 projects to
    a collection without features; neither [lat], nor the time variable,
    nor the attributes are looked at. *)
Theorem no_column_projection (fs : filesystem) (dap : string) (nc : dataset)
    (vlon : variable) (n : nat) :
  fs !! dap = Some nc →
  getvar nc "lon" = Ok vlon →
  var_shape nc vlon = [n; 0] →
  geojson fs dap = Ok (FeatureCollection []).
Proof.
  intros Hfs Hlon Hs.
  by rewrite (geojson_multi fs dap nc vlon (stride_for n) n 0 Hfs
                (get_stride_shape nc vlon n [0] Hlon Hs) Hlon Hs).
Qed.

Lemma no_column_projection_witness :
  has_var nc_no_columns "lat" = false
  ∧ geojson {[ "none.nc" := nc_no_columns ]} "none.nc" = Ok (FeatureCollection []).
Proof.
  split; [reflexivity|].
  apply (no_column_projection {[ "none.nc" := nc_no_columns ]} "none.nc" nc_no_columns
           (mk_variable f8 ["time"; "trajectory"] None None [] None) 3); reflexivity.
Defined.

(** ** What a projected line is made of *)

Lemma Forall_compress_self {A} (p : A → bool) (l : list A) :
  Forall (λ x, p x = true) (compress l (map p l)).
Proof.
  induction l as [|x l IH]; simpl; [constructor|].
  destruct (p x) eqn:Hp; [by constructor|done].
Qed.

Lemma Forall_zip_fst {A B} (P : A → Prop) (l : list A) (k : list B) :
  Forall P l → Forall (λ p, P p.1) (zip l k).
Proof.
  intros H. revert k. induction H as [|x l Hx _ IH]; intros [|y k]; simpl;
    constructor; auto.
Qed.

Lemma Forall_zip_snd {A B} (P : B → Prop) (l : list A) (k : list B) :
  Forall P k → Forall (λ p, P p.2) (zip l k).
Proof.
  intros H. revert l. induction H as [|y k Hy _ IH]; intros [|x l]; simpl;
    constructor; auto.
Qed.

Lemma bool_index_ok {A} (xs : list A) (m : list bool) (ys : list A) :
  bool_index xs m = Ok ys → ys = compress xs m.
Proof. unfold bool_index. destruct (decide _); by intros [= <-]. Qed.

Lemma column_feature_longitudes nc stride i f :
  column_feature nc stride i = Ok f → Forall (λ p, lt1000 p.1 = true) (geometry f).
Proof.
  unfold column_feature. intros H.
  apply result_bind_ok in H as (vlon & _ & H).
  apply result_bind_ok in H as (lon & _ & H).
  apply result_bind_ok in H as (vlat & _ & H).
  apply result_bind_ok in H as (lat & _ & H).
  apply result_bind_ok in H as (lon_m & _ & H).
  apply result_bind_ok in H as (lon_ms & Hms%bool_index_ok & H).
  apply result_bind_ok in H as (lat_m & _ & H).
  apply result_bind_ok in H as (lat_ms & _ & H).
  apply result_bind_ok in H as (s & _ & H).
  assert (Hg : geometry f = zip lon_ms lat_ms).
  { destruct (has_var nc "trajectory").
    - apply result_bind_ok in H as (vt & _ & H).
      apply result_bind_ok in H as (id & _ & H). by injection H as <-.
    - by injection H as <-. }
  rewrite Hg, Hms. apply (Forall_zip_fst (λ x, lt1000 x = true)), Forall_compress_self.
Qed.

Lemma single_feature_coordinates nc stride f :
  single_feature nc stride = Ok f →
  Forall (λ p, lt1000 p.1 = true ∧ lt1000 p.2 = true) (geometry f).
Proof.
  unfold single_feature. intros H.
  apply result_bind_ok in H as (vlon & _ & H).
  apply result_bind_ok in H as (lon & _ & H).
  apply result_bind_ok in H as (vlat & _ & H).
  apply result_bind_ok in H as (lat & _ & H).
  apply result_bind_ok in H as (s & _ & H). injection H as <-. cbn [geometry].
  apply Forall_and. split.
  - apply (Forall_zip_fst (λ x, lt1000 x = true)), Forall_compress_self.
  - apply (Forall_zip_snd (λ x, lt1000 x = true)), Forall_compress_self.
Qed.

(** A float below another one is a number. *)
Lemma lt1000_not_nan x : lt1000 x = true → PrimFloat.is_nan x = false.
Proof.
  unfold lt1000, PrimFloat.is_nan.
  rewrite FloatAxioms.ltb_spec, FloatAxioms.eqb_spec. unfold SFltb, SFeqb.
  destruct (Prim2SF x) as [s|s| |s m e]; cbn [SFcompare]; try done.
  - by destruct s.
  - intros _. destruct s; rewrite Z.compare_refl, Pos.compare_cont_refl; done.
Qed.

(** X11: no projected line ever holds a longitude that is not below 1000:
    the floating-point comparison [lon < 1000] is true of every coordinate
    of every feature, so that no longitude is a NaN either.  On the line of
    a one-dimensional container the same holds of every latitude. *)
Theorem projected_longitudes_below_threshold (fs : filesystem) (dap : string)
    (obj : gjobject) (f : feature) :
  geojson fs dap = Ok obj →
  f ∈ features_of obj →
  Forall (λ p, lt1000 p.1 = true ∧ PrimFloat.is_nan p.1 = false) (geometry f)
  ∧ (obj = Feature f → Forall (λ p, lt1000 p.2 = true) (geometry f)).
Proof.
  intros H Hf. unfold geojson in H.
  apply result_bind_ok in H as (nc & _ & H).
  apply result_bind_ok in H as (stride & _ & H).
  apply result_bind_ok in H as (vlon & _ & H).
  pose proof lt1000_not_nan as Hnan.
  destruct (decide (length (var_shape nc vlon) = 2)).
  - apply result_bind_ok in H as (feats & Hm & H). injection H as <-.
    simpl in Hf. apply mapM_result_inv in Hm.
    apply list_elem_of_lookup in Hf as [i Hi].
    destruct (Forall2_lookup_r _ _ _ _ _ Hm Hi) as (j & _ & Hj).
    apply column_feature_longitudes in Hj. split.
    + eapply Forall_impl; [exact Hj|]. intros p Hp. split; [done|by apply Hnan].
    + intros [=].
  - apply result_fmap_ok in H as (g & Hg & ->). simpl in Hf.
    apply list_elem_of_singleton in Hf as ->.
    apply single_feature_coordinates in Hg. split.
    + eapply Forall_impl; [exact Hg|]. intros p [Hp _]. split; [done|by apply Hnan].
    + intros _. eapply Forall_impl; [exact Hg|]. by intros p [_ Hp].
Qed.

Lemma projected_longitudes_below_threshold_witness :
  ∃ f, geojson sample_fs "lon_sentinel.nc" = Ok (Feature f)
    ∧ Forall (λ p, lt1000 p.1 = true ∧ PrimFloat.is_nan p.1 = false) (geometry f)
    ∧ Forall (λ p, lt1000 p.2 = true) (geometry f).
Proof.
  assert (Hg : ∃ f, geojson sample_fs "lon_sentinel.nc" = Ok (Feature f)).
  { eexists. vm_compute. reflexivity. }
  destruct Hg as [f Hf]. exists f. split; [exact Hf|].
  destruct (projected_longitudes_below_threshold sample_fs "lon_sentinel.nc"
              (Feature f) f Hf) as [H1 H2].
  - simpl. by left.
  - split; [exact H1|exact (H2 eq_refl)].
Defined.

(** X12: the single feature of a one-dimensional container has the global
    attribute [id] as its identifier, and None when there is no such
    attribute; deriving the coverage does not change it. *)
Theorem single_line_identifier (fs : filesystem) (dap : string) (nc : dataset)
    (f : feature) :
  fs !! dap = Some nc →
  geojson fs dap = Ok (Feature f) →
  fid f = default PyNone (assoc "id" (ncattrs nc))
  ∧ properties f !! "id" = assoc "id" (ncattrs nc).
Proof.
  intros Hfs H. unfold geojson in H. rewrite Hfs in H.
  cbn [mbind result_bind] in H.
  apply result_bind_ok in H as (stride & _ & H).
  apply result_bind_ok in H as (vlon & _ & H).
  destruct (decide (length (var_shape nc vlon) = 2)).
  { apply result_bind_ok in H as (feats & _ & H). discriminate H. }
  apply result_fmap_ok in H as (g & Hg & [= <-]).
  assert (Hp : coverage_properties nc stride (getncattrs nc) = Ok (properties f))
    by (by apply single_feature_properties).
  assert (Hid : fid f = default PyNone (properties f !! "id")).
  { unfold single_feature in Hg.
    apply result_bind_ok in Hg as (? & _ & Hg).
    apply result_bind_ok in Hg as (? & _ & Hg).
    apply result_bind_ok in Hg as (? & _ & Hg).
    apply result_bind_ok in Hg as (? & _ & Hg).
    apply result_bind_ok in Hg as (s & _ & Hg). by injection Hg as <-. }
  assert (Hs : properties f !! "id" = assoc "id" (ncattrs nc)).
  { rewrite <- getncattrs_lookup. unfold coverage_properties in Hp.
    destruct (negb _ || negb _).
    - apply result_bind_ok in Hp as ([a b] & _ & Hp). injection Hp as <-.
      by rewrite !lookup_insert_ne.
    - by injection Hp as <-. }
  by rewrite Hid, Hs.
Qed.

Lemma single_line_identifier_witness :
  ∃ f, geojson sample_fs "aligned.nc" = Ok (Feature f) ∧ fid f = PyStr "ru29".
Proof.
  assert (Hg : ∃ f, geojson sample_fs "aligned.nc" = Ok (Feature f)).
  { eexists. vm_compute. reflexivity. }
  destruct Hg as [f Hf]. exists f. split; [exact Hf|].
  apply (single_line_identifier sample_fs "aligned.nc" nc_aligned f eq_refl Hf).
Defined.

(** * A written container, projected *)

Lemma map_lookup_seq {A} (d : A) (l : list A) :
  map (λ k, default d (l !! k)) (seq 0 (length l)) = l.
Proof.
  apply list_eq. intros i. rewrite list_lookup_fmap.
  destruct (decide (i < length l)) as [Hi|Hi].
  - rewrite lookup_seq_lt by done. simpl.
    destruct (lookup_lt_is_Some_2 l i Hi) as [x ->]. done.
  - rewrite lookup_seq_ge by lia. simpl. symmetry. apply lookup_ge_None. lia.
Qed.

Lemma filter_map_comm {A B} (f : A → B) (p : B → bool) (l : list A) :
  List.filter p (map f l) = map f (List.filter (λ x, p (f x)) l).
Proof. induction l as [|x l IH]; simpl; [done|]. destruct (p (f x)); simpl; by rewrite IH. Qed.

(** The samples a strided read of a one-dimensional variable selects. *)
Lemma strided_samples nc v n step :
  length (var_elems nc v) = n →
  map (sample nc v) (stride_rows step n)
  = strided step (map astype_float64 (var_elems nc v)).
Proof.
  intros Hn. unfold stride_rows. rewrite <- strided_map. f_equal.
  unfold sample, cell. subst n.
  rewrite <- (map_map (λ k, default (fill_of v) (var_elems nc v !! k)) astype_float64).
  by rewrite map_lookup_seq.
Qed.

Lemma display_id now a ga :
  global_attributes_display now a = Ok ga → ga !! "id" = Some (PyStr "").
Proof.
  unfold global_attributes_display. intros H.
  repeat (apply result_bind_ok in H as (? & _ & H)).
  injection H as <-. vm_compute. reflexivity.
Qed.

Lemma getncattrs_written ga a d v :
  getncattrs (mk_dataset d (written_attributes ga a) v) = dict_update ga (kwargs a).
Proof.
  apply map_eq. intros k. rewrite getncattrs_lookup. cbn [ncattrs].
  apply assoc_written_attributes.
Qed.

Lemma written_coverage_declared now a ga :
  global_attributes_display now a = Ok ga →
  is_Some (dict_update ga (kwargs a) !! "time_coverage_start")
  ∧ is_Some (dict_update ga (kwargs a) !! "time_coverage_end").
Proof.
  intros Hga.
  destruct (global_attributes_display_coverage now a ga Hga)
    as (? & ? & ? & ? & _ & _ & _ & _ & H1 & H2).
  unfold dict_update. rewrite !lookup_union_is_Some. split; right; eauto.
Qed.

(** The variable that a write leaves for a time-class data array. *)
Lemma written_time_class_variable now a fs ga name t arr :
  shapes_agree a → global_attributes_display now a = Ok ga →
  (name, t, arr) ∈ data_arguments a → name ∈ time_class →
  ∃ nc v, writer_0_0 now a fs = (Ok (), <[filename a := nc]> fs)
    ∧ nc = mk_dataset (written_dimensions a) (written_attributes ga a) (written_variables a)
    ∧ getvar nc name = Ok v
    ∧ var_elems nc v = elems arr
    ∧ var_fill v = Some (NC_FILL_VALUES t)
    ∧ var_shape nc v
      = if decide (1 < length (trajectorydata a))
        then [length (timedata a); length (trajectorydata a)]
        else [length (timedata a)].
Proof.
  intros Hs Hga Hin Hcls.
  pose proof (data_variable_written a name t arr Hin) as Hw.
  pose proof (time_class_dims a name Hcls) as Hd.
  destruct (assoc name (written_variables a)) as [v|] eqn:Hv; [|discriminate Hw].
  injection Hw as H1 H2 _ H4. injection Hd as Hd.
  eexists _, v. split; [by apply writer_0_0_run|]. split; [reflexivity|].
  unfold getvar, var_elems, var_shape. cbn [variables dimensions].
  rewrite Hv, H4. split; [reflexivity|]. split; [reflexivity|]. split; [exact H2|].
  rewrite Hd, written_dims_shape. unfold dim_tuple.
  destruct (decide (1 < length (trajectorydata a))); reflexivity.
Qed.


Lemma conforming_positions (a : writer_args) :
  conforming a →
  (shape (latdata a) = time_class_shape a ∧ array_wf (latdata a))
  ∧ (shape (londata a) = time_class_shape a ∧ array_wf (londata a)).
Proof.
  intros (Hct & _ & _). unfold req_time_vars in Hct. cbn [app] in Hct.
  apply Forall_cons in Hct as [_ Hct]. apply Forall_cons in Hct as [_ Hct].
  apply Forall_cons in Hct as [_ Hct]. apply Forall_cons in Hct as [Hlat Hct].
  apply Forall_cons in Hct as [Hlon _]. done.
Qed.

(** X13: writing and then projecting, one trajectory.  The container that a
    successful write of conforming arrays with at most one trajectory
    leaves is projected to a single feature: its
    properties are the global attributes written, the two coverage
    attributes as declared by the writer, nothing derived; its id is the
    keyword argument [id] of the write, the empty string without one; its
    line is made of the strided longitudes below 1000 and the strided
    latitudes below 1000, with the stride of the number of times. *)
Theorem written_line_projection (now : string) (a : writer_args) (fs : filesystem) :
  write_ready now a →
  conforming a →
  length (trajectorydata a) ≤ 1 →
  ∃ ga f,
    global_attributes_display now a = Ok ga
    ∧ geojson (writer_0_0 now a fs).2 (filename a) = Ok (Feature f)
    ∧ properties f = dict_update ga (kwargs a)
    ∧ fid f = match kwargs a !! "id" with Some v => v | None => PyStr "" end
    ∧ geometry f
      = zip (List.filter lt1000
               (strided (stride_for (length (timedata a)))
                  (map astype_float64 (elems (londata a)))))
            (List.filter lt1000
               (strided (stride_for (length (timedata a)))
                  (map astype_float64 (elems (latdata a))))).
Proof.
  intros (ga & Hs & Hga)%write_ready_display Hconf HT.
  destruct (conforming_positions a Hconf) as [[Hsh_lat Hwf_lat] [Hsh_lon Hwf_lon]].
  unfold time_class_shape in Hsh_lat, Hsh_lon.
  rewrite decide_False in Hsh_lat, Hsh_lon by lia.
  assert (Hnlon : length (elems (londata a)) = length (timedata a)).
  { red in Hwf_lon. rewrite Hwf_lon, Hsh_lon. simpl. lia. }
  assert (Hnlat : length (elems (latdata a)) = length (timedata a)).
  { red in Hwf_lat. rewrite Hwf_lat, Hsh_lat. simpl. lia. }
  clear Hsh_lat Hwf_lat Hsh_lon Hwf_lon Hconf.
  destruct (written_time_class_variable now a fs ga "lon" f8 (londata a) Hs Hga)
    as (nc & vlon & Hrun & Hnc & Hvlon & Helon & _ & Hshlon).
  { unfold data_arguments. do 4 right. left. }
  { unfold time_class. do 6 right. left. }
  destruct (written_time_class_variable now a fs ga "lat" f8 (latdata a) Hs Hga)
    as (nc' & vlat & _ & Hnc' & Hvlat & Helat & _ & Hshlat).
  { unfold data_arguments. do 3 right. left. }
  { unfold time_class. do 4 right. left. }
  rewrite <- Hnc in Hnc'. subst nc'.
  rewrite decide_False in Hshlon, Hshlat by lia.
  set (n := length (timedata a)) in *.
  assert (Hattrs : getncattrs nc = dict_update ga (kwargs a)).
  { rewrite Hnc. apply getncattrs_written. }
  clear Hnc.
  assert (Hwf1 : var_wf nc vlon).
  { red. rewrite Helon, Hshlon, Hnlon. simpl. lia. }
  assert (Hwf2 : var_wf nc vlat).
  { red. rewrite Helat, Hshlat, Hnlat. simpl. lia. }
  assert (Hcov : coverage_properties nc (stride_for n) (getncattrs nc)
                 = Ok (dict_update ga (kwargs a))).
  { rewrite Hattrs. destruct (written_coverage_declared now a ga Hga) as [H1 H2].
    by apply coverage_properties_declared. }
  exists ga. eexists. split; [exact Hga|]. rewrite Hrun. cbn [snd]. split.
  { rewrite (geojson_single _ (filename a) nc vlon (stride_for n)).
    - rewrite (single_feature_1d nc (stride_for n) vlon vlat Hvlon Hvlat Hwf1 Hwf2 n
                 (dict_update ga (kwargs a)) Hshlon Hshlat Hcov).
      reflexivity.
    - apply lookup_insert_eq.
    - exact (get_stride_shape nc vlon n [] Hvlon Hshlon).
    - exact Hvlon.
    - rewrite Hshlon. simpl. lia. }
  cbn [properties fid geometry]. split; [reflexivity|]. split.
  - unfold dict_update. destruct (kwargs a !! "id") as [v|] eqn:Hid.
    + by rewrite (lookup_union_Some_l _ _ _ _ Hid).
    + rewrite lookup_union_r by exact Hid. by rewrite (display_id now a ga Hga).
  - rewrite <- !(filter_map_comm (sample nc _) lt1000).
    rewrite (strided_samples nc vlon n) by (rewrite Helon; exact Hnlon).
    rewrite (strided_samples nc vlat n) by (rewrite Helat; exact Hnlat).
    by rewrite Helon, Helat.
Qed.

Lemma written_line_projection_witness :
  ∃ f, geojson (writer_0_0 NOW call_kw fs_prior).2 "glider.nc" = Ok (Feature f)
    ∧ fid f = PyStr "ru29-20130709T0305"
    ∧ geometry f = [(-73.5, 39.5); (-73.25, 39.25)]%float
    ∧ properties f !! "time_coverage_end" = Some (PyStr "2013-07-09 03:05 UTC")
    ∧ properties f !! "time_coverage_start" = Some (PyStr "2013-07-09 04:35 UTC").
Proof.
  destruct (written_line_projection NOW call_kw fs_prior call_kw_ready
              call_kw_conforming)
    as (ga & f & Hga & Hf & Hp & Hid & Hg).
  - simpl. lia.
  - exists f. split; [exact Hf|]. split; [exact Hid|]. split; [exact Hg|].
    rewrite Hp. unfold dict_update. rewrite !lookup_union_r by (vm_compute; reflexivity).
    destruct (global_attributes_display_coverage NOW call_kw ga Hga)
      as (d0 & d1 & s0 & s1 & H1 & H2 & H3 & H4 & H5 & H6).
    injection H1 as <-. injection H2 as <-.
    vm_compute in H3. vm_compute in H4. injection H3 as <-. injection H4 as <-.
    split; [exact H5|exact H6].
Defined.




(** * The ROMS conversion *)

Lemma writer_0_0_frame now a fs other :
  other ≠ filename a → (writer_0_0 now a fs).2 !! other = fs !! other.
Proof.
  intros Hne. unfold writer_0_0. destruct (writer_body now a empty_dataset) as [r nc].
  cbn [snd]. by rewrite lookup_insert_ne.
Qed.

Ltac roms_present :=
  repeat match goal with
  | H : has_var _ _ = true |- _ => apply has_var_getvar in H as [? H]
  | H : has_var _ _ = false |- _ => apply has_var_false in H
  end.

(** X15: [romssim_read] looks the seven variables up in a fixed order, and
    fails with the key error of the first one that the file does not have;
    [romssim_write] then fails in the same way, for every version string,
    and writes nothing. *)
Theorem romssim_missing_variable (now filename output ver : string) (fs : filesystem)
    (nc : dataset) (found rest : list string) (missing : string) :
  fs !! filename = Some nc →
  roms_variables = found ++ missing :: rest →
  Forall (λ name, has_var nc name = true) found →
  has_var nc missing = false →
  romssim_read fs filename = Raise (KeyError missing)
  ∧ romssim_write now filename output ver fs = (Raise (KeyError missing), fs).
Proof.
  intros Hfs Heq Hall Hmiss.
  assert (Hread : romssim_read fs filename = Raise (KeyError missing)).
  { unfold roms_variables in Heq. unfold romssim_read. rewrite Hfs. rsimpl.
    do 7 (destruct found as [|? found]; cbn [app] in Heq;
          [injection Heq as <- <-; roms_present;
           repeat match goal with H : getvar _ _ = _ |- _ => rewrite H; clear H end;
           reflexivity
          |injection Heq as <- Heq; apply Forall_cons in Hall as [? Hall]]).
    by destruct found. }
  split; [exact Hread|]. unfold romssim_write. by rewrite Hread.
Qed.

Lemma romssim_missing_variable_witness :
  romssim_read roms_fs "roms_no_salt.nc" = Raise (KeyError "salt")
  ∧ romssim_write NOW "roms_no_salt.nc" "glider.nc" "0.0" roms_fs
    = (Raise (KeyError "salt"), roms_fs).
Proof.
  apply (romssim_missing_variable NOW "roms_no_salt.nc" "glider.nc" "0.0" roms_fs
           nc_roms_no_salt ["lon"; "lat"; "depth"; "rho"; "temp"] ["ocean_time"] "salt").
  - reflexivity.
  - reflexivity.
  - repeat constructor.
  - reflexivity.
Defined.

(** X16: [romssim_write] changes no destination other than [output]; with a
    version string other than "0.0" it reads its input and changes nothing
    at all, and a failing read changes nothing either. *)
Theorem romssim_write_frame (now filename output ver : string) (fs : filesystem) :
  (∀ other, other ≠ output →
     (romssim_write now filename output ver fs).2 !! other = fs !! other)
  ∧ (ver ≠ "0.0" →
     romssim_write now filename output ver fs
     = ((λ _, ()) <$> romssim_read fs filename, fs))
  ∧ (∀ e, romssim_read fs filename = Raise e →
     romssim_write now filename output ver fs = (Raise e, fs)).
Proof.
  split; [|split].
  - intros other Hne. unfold romssim_write.
    destruct (romssim_read fs filename) as [roms|e]; [|done].
    destruct (decide (ver = "0.0")); [|done].
    destruct (shape (roms_lon roms) !! 1) as [T|]; [|done].
    destruct (head (roms_datetime roms)) as [d0|]; [|done].
    by apply writer_0_0_frame.
  - intros Hver. unfold romssim_write.
    destruct (romssim_read fs filename) as [roms|e]; [|done].
    by rewrite decide_False.
  - intros e He. unfold romssim_write. by rewrite He.
Qed.

(** X17: the conversion needs a second axis.  For a file that can be
    read, none of whose times is missing, and whose [lon] has fewer than two
    axes, [romssim_write] fails with an
    index error at [roms["lon"].shape[1]], before the writer is called:
    whatever the destination holds stays in place. *)
Theorem romssim_needs_second_axis (now filename output : string) (fs : filesystem)
    (nc : dataset) (vlon : variable) (roms : roms_response) :
  fs !! filename = Some nc →
  (∀ vt, getvar nc "ocean_time" = Ok vt → no_missing nc vt) →
  getvar nc "lon" = Ok vlon →
  length (var_dims vlon) < 2 →
  romssim_read fs filename = Ok roms →
  romssim_write now filename output "0.0" fs = (Raise IndexError, fs)
  ∧ (romssim_write now filename output "0.0" fs).2 !! output = fs !! output.
Proof.
  intros Hfs _ Hlon Hrank Hread.
  assert (Hshape : shape (roms_lon roms) = var_shape nc vlon).
  { unfold romssim_read in Hread. rewrite Hfs in Hread.
    cbn [mbind result_bind] in Hread. rewrite Hlon in Hread.
    cbn [mbind result_bind fmap result_fmap] in Hread.
    repeat (apply result_bind_ok in Hread as (? & _ & Hread)).
    by injection Hread as <-. }
  assert (Hrun : romssim_write now filename output "0.0" fs = (Raise IndexError, fs)).
  { unfold romssim_write. rewrite Hread, decide_True by done.
    rewrite Hshape. unfold var_shape.
    destruct (var_dims vlon) as [|d1 [|d2 ds]]; [done|done|simpl in Hrank; lia]. }
  by rewrite Hrun.
Qed.

Lemma romssim_needs_second_axis_witness :
  romssim_write NOW "roms_flat.nc" "glider.nc" "0.0" roms_fs = (Raise IndexError, roms_fs)
  ∧ roms_fs !! "glider.nc" = Some nc_aligned.
Proof.
  assert (Hread : ∃ roms, romssim_read roms_fs "roms_flat.nc" = Ok roms).
  { eexists. vm_compute. reflexivity. }
  destruct Hread as [roms Hread].
  split; [|reflexivity].
  apply (romssim_needs_second_axis NOW "roms_flat.nc" "glider.nc" roms_fs nc_roms_flat
           (f8_var ["ocean_time"] None [] [2] [-73.5; -73]%float) roms).
  - reflexivity.
  - intros vt [= <-]. repeat constructor.
  - reflexivity.
  - simpl. lia.
  - exact Hread.
Defined.

(** ** A conversion that goes through *)














(** * What the validation looks at *)

Lemma result_bind_raise {A B} (m : result A) (f : A → result B) (e : exn) :
  m ≫= f = Raise e → m = Raise e ∨ ∃ a, m = Ok a ∧ f a = Raise e.
Proof. destruct m; simpl; [eauto|]. intros [= ->]. by left. Qed.

Lemma ndarray_max_raises x e : ndarray_max x = Raise e → e = ValueError.
Proof. unfold ndarray_max. destruct (elems x); [by intros [= <-]|done]. Qed.

Lemma ndarray_min_raises x e : ndarray_min x = Raise e → e = ValueError.
Proof. unfold ndarray_min. destruct (elems x); [by intros [= <-]|done]. Qed.

Lemma strftime_raises d e : strftime d = Raise e → e = ValueError.
Proof. unfold strftime. destruct (year d <? 1900)%Z; [by intros [= <-]|done]. Qed.

(** The attribute display fails with a value error or an index error. *)
Lemma display_raises now a e :
  global_attributes_display now a = Raise e → e = ValueError ∨ e = IndexError.
Proof.
  unfold global_attributes_display. intros H.
  do 3 (apply result_bind_raise in H as [H|(? & _ & H)];
        [left; by apply ndarray_max_raises in H|];
        apply result_bind_raise in H as [H|(? & _ & H)];
        [left; by apply ndarray_min_raises in H|]).
  apply result_bind_raise in H as [H|(? & _ & H)].
  { apply result_bind_raise in H as [H|(? & _ & H)].
    - right. unfold first_item in H. destruct (head (timedata a)); [done|].
      by injection H as <-.
    - left. by apply strftime_raises in H. }
  apply result_bind_raise in H as [H|(? & _ & H)]; [|done].
  apply result_bind_raise in H as [H|(? & _ & H)].
  - right. unfold last_item in H. destruct (last (timedata a)); [done|].
    by injection H as <-.
  - left. by apply strftime_raises in H.
Qed.

(** A write fails with an assertion error exactly when one of the two
    validation loops does. *)
Lemma writer_0_0_asserts now a fs :
  (writer_0_0 now a fs).1 = Raise AssertionError
  ↔ (assert_first_axis (length (timedata a)) (req_time_vars a) empty_dataset).1
    = Raise AssertionError
    ∨ ((assert_first_axis (length (timedata a)) (req_time_vars a) empty_dataset).1 = Ok ()
       ∧ (assert_first_axis (length (time_uvdata a)) (req_uv_vars a) empty_dataset).1
         = Raise AssertionError).
Proof.
  destruct (assert_first_axis_cases (length (timedata a)) (req_time_vars a) empty_dataset)
    as [[Hall Hrun]|[Hrun|Hrun]].
  - destruct (assert_first_axis_cases (length (time_uvdata a)) (req_uv_vars a)
                empty_dataset) as [[Hall' Hrun']|[Hrun'|Hrun']].
    + rewrite Hrun, Hrun'. cbn [fst]. split; [|intros [H|[_ H]]; discriminate H].
      intros H. exfalso.
      destruct (global_attributes_display now a) as [ga|e] eqn:Hga.
      * rewrite (writer_0_0_run now a fs ga (conj Hall Hall') Hga) in H. discriminate H.
      * rewrite (writer_0_0_display_raises now a fs e (conj Hall Hall') Hga) in H.
        injection H as ->. by destruct (display_raises now a _ Hga).
    + assert (Hw : (writer_0_0 now a fs).1 = Raise AssertionError).
      { unfold writer_0_0, writer_body.
        erewrite W_bind_ok; [|exact Hrun]. by erewrite W_bind_raise. }
      rewrite Hw, Hrun, Hrun'. cbn [fst]. split; [by right|done].
    + assert (Hw : (writer_0_0 now a fs).1 = Raise IndexError).
      { unfold writer_0_0, writer_body.
        erewrite W_bind_ok; [|exact Hrun]. by erewrite W_bind_raise. }
      rewrite Hw, Hrun, Hrun'. cbn [fst]. split; [done|]. intros [H|[_ H]]; discriminate H.
  - assert (Hw : (writer_0_0 now a fs).1 = Raise AssertionError).
    { unfold writer_0_0, writer_body. by erewrite W_bind_raise. }
    rewrite Hw, Hrun. cbn [fst]. split; [by left|done].
  - assert (Hw : (writer_0_0 now a fs).1 = Raise IndexError).
    { unfold writer_0_0, writer_body. by erewrite W_bind_raise. }
    rewrite Hw, Hrun. cbn [fst]. split; [done|]. intros [H|[H _]]; discriminate H.
Qed.

(** X19: the validation never looks at the segment numbers, the profile
    numbers and the quality flags of [time], [u] and [v]: whatever arrays a
    call gives for these five arguments, of whatever shape, it fails with
    an assertion error exactly when it does with any other arrays in their
    place. *)
Theorem validation_ignores_five_arguments (now : string) (a : writer_args)
    (fs : filesystem) (segment_id profile_id : ndarray)
    (time_qc u_qc v_qc : option ndarray) :
  (writer_0_0 now (with_unvalidated a segment_id profile_id time_qc u_qc v_qc) fs).1
  = Raise AssertionError
  ↔ (writer_0_0 now a fs).1 = Raise AssertionError.
Proof. rewrite !writer_0_0_asserts. reflexivity. Qed.

(** ** Coverage that cannot be derived *)

(** X20: a time variable with samples and without a [units] attribute
    stops the derivation of the coverage with an attribute error, and with
    it the projection of a one-dimensional container that does not declare
    both coverage attributes. *)
Theorem coverage_needs_units (fs : filesystem) (dap : string) (nc : dataset)
    (vt vlon vlat : variable) (n m k : nat) (inner : list nat) :
  fs !! dap = Some nc →
  getvar nc "time" = Ok vt →
  var_shape nc vt = S n :: inner →
  assoc "units" (var_attrs vt) = None →
  (∀ step, get_time_coverage nc step = Raise AttributeError)
  ∧ (getvar nc "lon" = Ok vlon → getvar nc "lat" = Ok vlat →
     var_shape nc vlon = [m] → var_shape nc vlat = [k] →
     assoc "time_coverage_start" (ncattrs nc) = None
     ∨ assoc "time_coverage_end" (ncattrs nc) = None →
     geojson fs dap = Raise AttributeError).
Proof.
  intros Hfs Hvt Hst Hunits.
  assert (Hc : ∀ step, get_time_coverage nc step = Raise AttributeError).
  { intros step.
    assert (Hh : has_var nc "time" = true) by (apply has_var_getvar; eauto).
    assert (Hcov : coverage_of nc "time" step = Raise AttributeError).
    { unfold coverage_of. rewrite Hvt. rsimpl. unfold getitem_stride. rewrite Hst. rsimpl.
      unfold rows. cbn [seq map]. unfold strided. cbn [every_from head].
      unfold coverage_bound. rsimpl. by rewrite Hunits. }
    unfold get_time_coverage. rewrite Hh. by destruct (has_var nc "ocean_time"). }
  split; [exact Hc|]. intros Hlon Hlat Hs1 Hs2 Hno.
  rewrite (geojson_single fs dap nc vlon (stride_for m) Hfs
             (get_stride_shape nc vlon m [] Hlon Hs1) Hlon) by (by rewrite Hs1).
  unfold single_feature. rewrite Hlon, Hlat. rsimpl.
  unfold getitem_stride. rewrite Hs1, Hs2. rsimpl.
  rewrite <- !getncattrs_lookup in Hno.
  rewrite coverage_properties_derived by done. by rewrite Hc.
Qed.

Lemma coverage_needs_units_witness :
  get_time_coverage nc_no_units 1 = Raise AttributeError
  ∧ geojson {[ "no_units.nc" := nc_no_units ]} "no_units.nc" = Raise AttributeError.
Proof.
  destruct (coverage_needs_units {[ "no_units.nc" := nc_no_units ]} "no_units.nc"
              nc_no_units
              (f8_var ["time"] None [] [2] [86400; 86460]%float)
              (f8_var ["time"] None [] [2] [10; 20]%float)
              (f8_var ["time"] None [] [2] [1; 2]%float) 1 2 2 [])
    as [H1 H2]; [reflexivity|reflexivity|reflexivity|reflexivity|].
  split; [apply H1|]. apply H2; try reflexivity. by left.
Defined.
